(** * The C# build-fix scenario validator

    A shallow embedding of the validation callback of
    [src/myscenarios/fix-build/csharp-build-fix.stest.ts]: the five keyword
    checks of [expectedBehaviors], the count of the checks that match, the
    verdict [{success, errorMessage}], the extraction of tool calls by a regular
    expression and the best-effort write of the analysis file.

    A JavaScript string is a sequence of UTF-16 code units; a code unit is a
    number ([N]), and the literals of the source, all ASCII, are written with
    [lit].  The callback logs to the console, to the test runtime and to a file:
    these effects are threaded through a state-and-exception monad over an
    explicit world, and what the host does (the runtime logger, the file system,
    the clock) is a record of operations that may throw. *)

From Stdlib Require Import String Ascii DecimalString.
From Stdlib Require Import List Bool Arith NArith ZArith Lia Permutation.
Import ListNotations.

Set Implicit Arguments.

(** ** Strings *)

Module JsString.

(** A string value: its UTF-16 code units, in order. *)
Definition jsstring := list N.

(** An ASCII literal of the source as a string value. *)
Definition lit (s : string) : jsstring :=
  map N_of_ascii (list_ascii_of_string s).

(** [s.startsWith(needle)]: [needle] is a prefix of [s]. *)
Fixpoint startsWith (s needle : jsstring) : bool :=
  match needle, s with
  | [], _ => true
  | _ :: _, [] => false
  | c :: needle', d :: s' => N.eqb c d && startsWith s' needle'
  end.

(** [s.includes(needle)]: the search tries every position of [s] from the
    left, the end of the string included (where only the empty needle fits). *)
Fixpoint includes (s needle : jsstring) : bool :=
  startsWith s needle ||
  match s with
  | [] => false
  | _ :: s' => includes s' needle
  end.

(** [s.substring(0, n)]: the first [n] code units, all of [s] when it is
    shorter. *)
Definition substring0 (n : nat) (s : jsstring) : jsstring := firstn n s.

(** [parts.join(sep)]. *)
Fixpoint join (sep : jsstring) (parts : list jsstring) : jsstring :=
  match parts with
  | [] => []
  | [p] => p
  | p :: rest => p ++ sep ++ join sep rest
  end.

(** A non-negative integer in a template literal: its decimal digits. *)
Definition ofNat (n : nat) : jsstring :=
  lit (NilZero.string_of_uint (Nat.to_uint n)).

(** A boolean in a template literal. *)
Definition ofBool (b : bool) : jsstring :=
  if b then lit "true" else lit "false".

(** [s === t]. *)
Fixpoint eqb (s t : jsstring) : bool :=
  match s, t with
  | [], [] => true
  | c :: s', d :: t' => N.eqb c d && eqb s' t'
  | _, _ => false
  end.

(** The proposition [includes] decides: [needle] occurs in [s]. *)
Definition Occurs (needle s : jsstring) : Prop :=
  exists before after, s = before ++ needle ++ after.

End JsString.
Import JsString.

(** ** The behavior checks (lines 51-80) *)

(** Should attempt to build the project first. *)
Definition dotnet_build_command (response : jsstring) : bool :=
  includes response (lit "dotnet build") || includes response (lit "building")
  || includes response (lit "compile").

(** Should use run_in_terminal tool to execute build command. *)
Definition run_in_terminal_usage (response : jsstring) : bool :=
  includes response (lit "run_in_terminal") || includes response (lit "terminal").

(** Should read and analyze error messages. *)
Definition error_analysis (response : jsstring) : bool :=
  includes response (lit "error")
  && (includes response (lit "CS") || includes response (lit "build")).

(** Should edit source files to fix errors. *)
Definition file_editing (response : jsstring) : bool :=
  includes response (lit "replace_string_in_file") || includes response (lit "edit")
  || includes response (lit "fix").

(** Should retry building after fixes. *)
Definition retry_building (response : jsstring) : bool :=
  includes response (lit "build") && includes response (lit "again").

(** The array [expectedBehaviors], in the order of the source. *)
Definition expectedBehaviors : list (jsstring -> bool) :=
  [dotnet_build_command; run_in_terminal_usage; error_analysis; file_editing;
   retry_building].

(** [expectedBehaviors.filter(behavior => behavior(fullResponse))], for any
    array of checks. *)
Definition behaviorMatches (checks : list (jsstring -> bool))
    (fullResponse : jsstring) : list (jsstring -> bool) :=
  filter (fun behavior => behavior fullResponse) checks.

(** [behaviorMatches.length >= threshold]; the source's threshold is the
    literal 2. *)
Definition meets (threshold : Z) (matched : nat) : bool :=
  (threshold <=? Z.of_nat matched)%Z.

(** The value the callback returns. *)
Record Verdict := mkVerdict {
  success : bool;
  errorMessage : option jsstring
}.

(** The template literal of line 125. *)
Definition failureMessage (matched total : nat) : jsstring :=
  lit "Expected agent to demonstrate C# build-fix behaviors, but only "
  ++ ofNat matched ++ lit " out of " ++ ofNat total
  ++ lit " behaviors were found".

(** Lines 79, 80 and 123-126 over an array of checks and a threshold: the
    number of checks that match, the comparison with the threshold and the
    returned object. *)
Definition matchedCount (fullResponse : jsstring)
    (checks : list (jsstring -> bool)) : nat :=
  length (behaviorMatches checks fullResponse).

Definition verdictOf (ok : bool) (matched total : nat) : Verdict :=
  {| success := ok;
     errorMessage := if ok then None else Some (failureMessage matched total) |}.

Definition evaluate (fullResponse : jsstring)
    (checks : list (jsstring -> bool)) (threshold : Z) : Verdict :=
  let matched := matchedCount fullResponse checks in
  verdictOf (meets threshold matched) matched (length checks).

(** ** The tool-call pattern (line 100)

    The pattern [/(\w+_\w+|\w+)\(/g] is built from character classes,
    sequence, ordered alternation and the greedy quantifier [+] over a class.
    Matching follows the backtracking semantics of the language: a matcher
    takes the input at the current position and a continuation for what
    follows, tries its choices in priority order and returns the first that the
    continuation accepts.  A result is the input left after the whole match. *)

Module RegExp.

Inductive regex : Type :=
| Class (p : N -> bool)
| Seq (r1 r2 : regex)
| Alt (r1 r2 : regex)
| PlusClass (p : N -> bool).

(** [\w]: an ASCII letter, a digit or the underscore. *)
Definition wordChar (c : N) : bool :=
  ((97 <=? c) && (c <=? 122) || (65 <=? c) && (c <=? 90)
   || (48 <=? c) && (c <=? 57) || (c =? 95))%N.

Definition charIs (x : N) (c : N) : bool := N.eqb c x.

(** Greedy [p+]: one code unit of the class, then as many more as the
    continuation allows, the longest first. *)
Fixpoint plusClass (p : N -> bool) (s : jsstring)
    (k : jsstring -> option jsstring) : option jsstring :=
  match s with
  | [] => None
  | c :: s' =>
      if p c then
        match plusClass p s' k with
        | Some rest => Some rest
        | None => k s'
        end
      else None
  end.

Fixpoint matcher (r : regex) (s : jsstring)
    (k : jsstring -> option jsstring) : option jsstring :=
  match r with
  | Class p =>
      match s with
      | c :: s' => if p c then k s' else None
      | [] => None
      end
  | Seq r1 r2 => matcher r1 s (fun s1 => matcher r2 s1 k)
  | Alt r1 r2 =>
      match matcher r1 s k with
      | Some rest => Some rest
      | None => matcher r2 s k
      end
  | PlusClass p => plusClass p s k
  end.

(** A match of [r] that starts at the head of [s]: the matched text. *)
Definition matchAt (r : regex) (s : jsstring) : option jsstring :=
  match matcher r s Some with
  | Some rest => Some (firstn (length s - length rest) s)
  | None => None
  end.

(** The loop of a global match, one position of the input at a time.  [skip]
    is the distance to [lastIndex]: positions inside the previous match are
    passed over; at [lastIndex] a match is tried, and it moves [lastIndex] to
    its end (one further when it is empty), a failure moves it by one. *)
Fixpoint scan (r : regex) (skip : nat) (s : jsstring) : list jsstring :=
  match s with
  | [] =>
      match skip, matchAt r [] with
      | O, Some m => [m]
      | _, _ => []
      end
  | _ :: s' =>
      match skip with
      | S n => scan r n s'
      | O =>
          match matchAt r s with
          | Some m => m :: scan r (length m - 1) s'
          | None => scan r 0 s'
          end
      end
  end.

(** [s.match(r)] for a pattern with the flag [g]: every match from the left,
    or [null] when there is none. *)
Definition matchGlobal (r : regex) (s : jsstring) : option (list jsstring) :=
  match scan r 0 s with
  | [] => None
  | ms => Some ms
  end.

End RegExp.
Import RegExp.

(** [/(\w+_\w+|\w+)\(/]. *)
Definition toolCallPattern : regex :=
  Seq (Alt (Seq (PlusClass wordChar) (Seq (Class (charIs 95)) (PlusClass wordChar)))
           (PlusClass wordChar))
      (Class (charIs 40)).

(** What is left of the pattern before its closing [\(]: the continuation of
    the group. *)
Definition paren (s : jsstring) : option jsstring :=
  matcher (Class (charIs 40)) s Some.

(** [fullResponse.match(/(\w+_\w+|\w+)\(/g) || []]. *)
Definition toolCallMatches (fullResponse : jsstring) : list jsstring :=
  match matchGlobal toolCallPattern fullResponse with
  | Some ms => ms
  | None => []
  end.

(** ** Effects

    A computation runs in a world and ends normally with a value or abruptly
    with a thrown value; either way it leaves a world behind. *)

Inductive Completion (E A : Type) : Type :=
| Normal (a : A)
| Throw (e : E).
Arguments Normal {E A} a.
Arguments Throw {E A} e.

(** What is observable of the process: the lines written by [console.log], the
    oldest first, and the state of the host (the test runtime, the file system,
    the clock). *)
Record World (H : Type) : Type := mkWorld {
  console : list jsstring;
  hostState : H
}.

Definition M (H E A : Type) : Type := World H -> Completion E A * World H.

Definition ret {H E A} (a : A) : M H E A := fun w => (Normal a, w).

Definition bind {H E A B} (c : M H E A) (k : A -> M H E B) : M H E B :=
  fun w =>
    match c w with
    | (Normal a, w') => k a w'
    | (Throw e, w') => (Throw e, w')
    end.

(** [try { body } catch (error) { handler }]. *)
Definition tryCatch {H E A} (body : M H E A) (handler : E -> M H E A) : M H E A :=
  fun w =>
    match body w with
    | (Normal a, w') => (Normal a, w')
    | (Throw e, w') => handler e w'
    end.

(** An operation of the host, which acts on the host's state only. *)
Definition liftHost {H E A} (op : H -> Completion E A * H) : M H E A :=
  fun w =>
    let (r, h) := op (hostState w) in
    (r, {| console := console w; hostState := h |}).

(** [console.log(line)]: the line is appended to the console; the call is
    taken to complete normally, as the source takes it (it is the fallback of
    [log], outside every [try]). *)
Definition console_log {H E} (line : jsstring) : M H E unit :=
  fun w => (Normal tt, {| console := console w ++ [line]; hostState := hostState w |}).

Declare Scope js_scope.
Delimit Scope js_scope with js.
Notation "x <- c1 ;; c2" := (bind c1 (fun x => c2))
  (at level 61, c1 at next level, right associativity) : js_scope.
Notation "c1 ;; c2" := (bind c1 (fun _ => c2))
  (at level 61, right associativity) : js_scope.
Open Scope js_scope.

(** [array.forEach((item, index) => body)]. *)
Fixpoint forEachFrom {H E A} (body : A -> nat -> M H E unit) (index : nat)
    (array : list A) : M H E unit :=
  match array with
  | [] => ret tt
  | item :: rest => body item index ;; forEachFrom body (S index) rest
  end.

Definition forEach {H E A} (body : A -> nat -> M H E unit) (array : list A) :
    M H E unit :=
  forEachFrom body 0 array.

(** The object [logData] of lines 104-113. *)
Module LogData.
Record t : Type := mk {
  timestamp : jsstring;
  responseLength : nat;
  behaviorMatches : nat;
  totalBehaviors : nat;
  success : bool;
  toolCalls : list jsstring;
  responsePreview : jsstring;
  fullResponse : jsstring
}.
End LogData.

(** What the callback uses and the repository does not define: the service
    accessor and the runtime's logger of the test framework, [fs], [path],
    [Date], [JSON] and the conversion of a caught value to a string.  The
    three that the source guards with [try] may throw, and all of them may
    change the host's state; the clock, the rendering of a plain object as
    JSON and the join of two paths complete normally. *)
Record Host (H E Accessor Runtime : Type) : Type := mkHost {
  accessor_get : Accessor -> H -> Completion E Runtime * H;
  testContext_log : Runtime -> jsstring -> H -> Completion E unit * H;
  fs_writeFileSync : jsstring -> jsstring -> H -> Completion E unit * H;
  Date_toISOString : H -> jsstring * H;
  JSON_stringify : LogData.t -> jsstring;
  path_join_dirname : jsstring -> jsstring;
  String_of : E -> jsstring
}.

(** The wrench of the log lines (U+1F527, a surrogate pair), the check mark
    (U+2705) and the cross (U+274C). *)
Definition wrench : jsstring := [55357; 56615]%N.
Definition checkMark : jsstring := [9989]%N.
Definition crossMark : jsstring := [10060]%N.

Definition behaviorNames : list jsstring :=
  [lit "dotnet build command"; lit "run_in_terminal usage"; lit "error analysis";
   lit "file editing"; lit "retry building"].

(** ** The validation callback (lines 35-127) *)

Section Callback.

Context {H E Accessor Runtime : Type}.
Context {Response Turn Commands Confirmations FileTrees : Type}.
Variable host : Host H E Accessor Runtime.

(** The closure [log] of lines 41-49: the console first, then the runtime's
    logger, whose failure is swallowed. *)
Definition log (accessor : Accessor) (message : jsstring) : M H E unit :=
  console_log (wrench ++ lit " " ++ message) ;;
  tryCatch
    (testContext <- liftHost (accessor_get host accessor) ;;
     liftHost (testContext_log host testContext message))
    (fun error => ret tt).

(** [path.join(__dirname, 'debug-analysis.json')]. *)
Definition logFile : jsstring :=
  path_join_dirname host (lit "debug-analysis.json").

(** Lines 116-121: the write of the analysis file, and the line that says how
    it went. *)
Definition writeAnalysis (accessor : Accessor) (logData : LogData.t) :
    M H E unit :=
  tryCatch
    (liftHost (fs_writeFileSync host logFile (JSON_stringify host logData)) ;;
     log accessor (lit "[FILE-OUTPUT] Analysis written to: " ++ logFile))
    (fun error =>
       log accessor (lit "[FILE-OUTPUT] Failed to write log: "
                     ++ String_of host error)).

(** [new Date().toISOString()]. *)
Definition timestampNow : M H E jsstring :=
  liftHost (fun h => let (iso, h') := Date_toISOString host h in (Normal iso, h')).

(** Lines 100-126, from the array of tool calls on: the line about them, the
    analysis file, the returned verdict. *)
Definition reportAndReturn (accessor : Accessor) (fullResponse : jsstring)
    (matches : list (jsstring -> bool)) (success : bool)
    (toolCallMatches : list jsstring) : M H E Verdict :=
  log accessor (lit "[TOOL-CALLS] Found tool calls: "
                ++ join (lit ", ") toolCallMatches) ;;
  now <- timestampNow ;;
  let logData :=
    {| LogData.timestamp := now;
       LogData.responseLength := length fullResponse;
       LogData.behaviorMatches := length matches;
       LogData.totalBehaviors := length expectedBehaviors;
       LogData.success := success;
       LogData.toolCalls := toolCallMatches;
       LogData.responsePreview := substring0 500 fullResponse;
       LogData.fullResponse := fullResponse |} in
  writeAnalysis accessor logData ;;
  ret (verdictOf success (length matches) (length expectedBehaviors)).

(** The callback given to [generateScenarioTestRunner]. *)
Definition validationCallback (accessor : Accessor) (question : jsstring)
    (response : Response) (fullResponse : jsstring) (turn : Turn) (index : nat)
    (commands : Commands) (confirmations : Confirmations)
    (fileTrees : FileTrees) : M H E Verdict :=
  console_log (wrench ++ lit " [VALIDATION-START] Processing response of length: "
               ++ ofNat (length fullResponse)) ;;
  console_log (wrench ++ lit " [VALIDATION-DEBUG] Response preview: "
               ++ substring0 200 fullResponse ++ lit "...") ;;
  let matches := behaviorMatches expectedBehaviors fullResponse in
  let success := meets 2 (length matches) in
  log accessor (lit "[BEHAVIOR-ANALYSIS] Found " ++ ofNat (length matches)
                ++ lit "/" ++ ofNat (length expectedBehaviors)
                ++ lit " expected behaviors") ;;
  log accessor (lit "[BEHAVIOR-ANALYSIS] Success: " ++ ofBool success) ;;
  forEach
    (fun (behavior : jsstring -> bool) (index : nat) =>
       let found := behavior fullResponse in
       log accessor (lit "[BEHAVIOR-CHECK] "
                     ++ nth index behaviorNames (lit "undefined") ++ lit ": "
                     ++ (if found then checkMark else crossMark)))
    expectedBehaviors ;;
  reportAndReturn accessor fullResponse matches success
                  (toolCallMatches fullResponse).

End Callback.

(** ** A host to run the callback on

    A small file system, writable or read-only, a runtime logger that keeps
    its lines and a clock that stands still.  The accessor says whether the
    runtime service is registered. *)

Module TestHost.

Record state : Type := mkState {
  runtimeLog : list jsstring;
  files : list (jsstring * jsstring)
}.

Definition get (registered : bool) (h : state) : Completion jsstring unit * state :=
  if registered then (Normal tt, h)
  else (Throw (lit "unknown service"), h).

Definition runtime_log (_ : unit) (message : jsstring) (h : state) :
    Completion jsstring unit * state :=
  (Normal tt, {| runtimeLog := runtimeLog h ++ [message]; files := files h |}).

Definition writeFileSync (readOnly : bool) (path content : jsstring) (h : state) :
    Completion jsstring unit * state :=
  if readOnly then (Throw (lit "EROFS: read-only file system"), h)
  else
    (Normal tt,
     {| runtimeLog := runtimeLog h;
        files := (path, content)
                 :: filter (fun f => negb (eqb (fst f) path)) (files h) |}).

Definition render (d : LogData.t) : jsstring :=
  lit "{behaviorMatches: " ++ ofNat (LogData.behaviorMatches d)
  ++ lit ", totalBehaviors: " ++ ofNat (LogData.totalBehaviors d)
  ++ lit ", success: " ++ ofBool (LogData.success d) ++ lit "}".

Definition host (readOnly : bool) : Host state jsstring bool unit :=
  {| accessor_get := get;
     testContext_log := runtime_log;
     fs_writeFileSync := writeFileSync readOnly;
     Date_toISOString := fun h => (lit "2025-01-01T00:00:00.000Z", h);
     JSON_stringify := render;
     path_join_dirname := fun name => lit "/scenarios/fix-build/" ++ name;
     String_of := fun e => lit "Error: " ++ e |}.

Definition initial : World state :=
  {| console := []; hostState := {| runtimeLog := []; files := [] |} |}.

(** One run of the callback on a transcript; the arguments the callback does
    not read are units. *)
Definition run (registered readOnly : bool) (fullResponse : jsstring) :
    Completion jsstring Verdict * World state :=
  validationCallback (host readOnly) registered (lit "fix the build") tt
                     fullResponse tt 0 tt tt tt initial.

End TestHost.

(** The literals the five checks search for. *)
Definition expectedSubstrings : list jsstring :=
  [lit "dotnet build"; lit "building"; lit "compile"; lit "run_in_terminal";
   lit "terminal"; lit "error"; lit "CS"; lit "build";
   lit "replace_string_in_file"; lit "edit"; lit "fix"; lit "again"].

(** The console line that [writeAnalysis] ends with, by the outcome of the
    write. *)
Definition fileOutputLine {H E Accessor Runtime} (host : Host H E Accessor Runtime)
    (outcome : Completion E unit) : jsstring :=
  wrench ++ lit " "
  ++ match outcome with
     | Normal _ => lit "[FILE-OUTPUT] Analysis written to: " ++ logFile host
     | Throw error => lit "[FILE-OUTPUT] Failed to write log: " ++ String_of host error
     end.

(** Transcripts to run the checks on. *)
Definition buildAndErrorTranscript : jsstring :=
  lit "Running dotnet build now. error CS1002 found.".

Definition noSignalTranscript : jsstring := lit "Looking at the file.".

Definition toolCallTranscript : jsstring :=
  lit "run_in_terminal(cmd) then replace_string_in_file(a,b)".

(** A check of the default list is one of the five. *)
Ltac each_check Hin :=
  unfold expectedBehaviors in Hin; cbn [In] in Hin;
  repeat (destruct Hin as [<- | Hin]; [ | ]); [ .. | contradiction ].

(** ** More of the scenario file, for the properties beyond the claims *)

(** The positions of a transcript at which a word character stands directly
    before an opening parenthesis, counted. *)
Fixpoint countCalls (s : jsstring) : nat :=
  match s with
  | [] => 0
  | c :: s' =>
      match s' with
      | d :: _ => (if wordChar c && N.eqb d 40 then 1 else 0) + countCalls s'
      | [] => 0
      end
  end.

(** [/\w+\(/]: the tool-call pattern without its first alternative. *)
Definition wordsThenParen : regex :=
  Seq (PlusClass wordChar) (Class (charIs 40)).

(** The console lines of a [forEach] whose body logs one line per item. *)
Fixpoint linesFrom {A} (line : A -> nat -> jsstring) (index : nat)
    (array : list A) : list jsstring :=
  match array with
  | [] => []
  | item :: rest => line item index :: linesFrom line (S index) rest
  end.

(** The console line of one [log(message)]. *)
Definition logged (message : jsstring) : jsstring :=
  wrench ++ lit " " ++ message.

(** The lines the callback writes before it turns to the analysis file, read
    off lines 37, 38, 83, 84, 96 and 101. *)
Definition consoleReport (fullResponse : jsstring) : list jsstring :=
  let matches := behaviorMatches expectedBehaviors fullResponse in
  [wrench ++ lit " [VALIDATION-START] Processing response of length: "
   ++ ofNat (length fullResponse);
   wrench ++ lit " [VALIDATION-DEBUG] Response preview: "
   ++ substring0 200 fullResponse ++ lit "...";
   logged (lit "[BEHAVIOR-ANALYSIS] Found " ++ ofNat (length matches)
           ++ lit "/" ++ ofNat (length expectedBehaviors)
           ++ lit " expected behaviors");
   logged (lit "[BEHAVIOR-ANALYSIS] Success: "
           ++ ofBool (meets 2 (length matches)))]
  ++ linesFrom
       (fun (behavior : jsstring -> bool) (index : nat) =>
          logged (lit "[BEHAVIOR-CHECK] "
                  ++ nth index behaviorNames (lit "undefined") ++ lit ": "
                  ++ (if behavior fullResponse then checkMark else crossMark)))
       0 expectedBehaviors
  ++ [logged (lit "[TOOL-CALLS] Found tool calls: "
              ++ join (lit ", ") (toolCallMatches fullResponse))].

(** The object [logData] of lines 104-113 for a response and a timestamp. *)
Definition analysisOf (now fullResponse : jsstring) : LogData.t :=
  let matches := behaviorMatches expectedBehaviors fullResponse in
  {| LogData.timestamp := now;
     LogData.responseLength := length fullResponse;
     LogData.behaviorMatches := length matches;
     LogData.totalBehaviors := length expectedBehaviors;
     LogData.success := meets 2 (length matches);
     LogData.toolCalls := toolCallMatches fullResponse;
     LogData.responsePreview := substring0 500 fullResponse;
     LogData.fullResponse := fullResponse |}.


(** Gaps and calls in turn: a gap, a call, a gap, a call, and so on. *)
Fixpoint weave (gaps calls : list jsstring) : jsstring :=
  match gaps, calls with
  | gap :: gaps', call :: calls' => gap ++ call ++ weave gaps' calls'
  | _, _ => []
  end.

(** A host on which the file system is writable but the path of the analysis
    file is a directory: the write of that file throws, others succeed. *)
Module DirectoryHost.

Definition writeFileSync (path content : jsstring) (h : TestHost.state) :
    Completion jsstring unit * TestHost.state :=
  if eqb path (lit "/scenarios/fix-build/debug-analysis.json")
  then (Throw (lit "EISDIR: illegal operation on a directory, open"), h)
  else TestHost.writeFileSync false path content h.

Definition host : Host TestHost.state jsstring bool unit :=
  {| accessor_get := TestHost.get;
     testContext_log := TestHost.runtime_log;
     fs_writeFileSync := writeFileSync;
     Date_toISOString := fun h => (lit "2025-01-01T00:00:00.000Z", h);
     JSON_stringify := TestHost.render;
     path_join_dirname := fun name => lit "/scenarios/fix-build/" ++ name;
     String_of := fun e => lit "Error: " ++ e |}.

Definition run (registered : bool) (fullResponse : jsstring) :
    Completion jsstring Verdict * World TestHost.state :=
  validationCallback host registered (lit "fix the build") tt fullResponse
                     tt 0 tt tt tt TestHost.initial.

End DirectoryHost.

(** ** The launcher scripts

    The bash launcher reads its arguments in a loop (lines 8-33 of the
    script); the PowerShell launcher loads [.env] line by line. *)

Module Bash.

Local Open Scope string_scope.

(** How the argument loop ends: the script goes on with [SKIP_BUILD] set, or
    it has exited with a status after some lines on the standard output. *)
Inductive Outcome : Type :=
| GoesOn (SKIP_BUILD : bool)
| Exits (status : nat) (stdout : list string).

(** The lines of [--help]; [script] is [$0]. *)
Definition usage (script : string) : list string :=
  ["Usage: " ++ script ++ " [options]";
   "";
   "Options:";
   "  --skip-build    Skip building Docker image and only run existing image";
   "  --help, -h      Show this help message";
   "";
   "This script runs the C# Build Fix scenario in Docker.";
   "Requires GitHub authentication token (GITHUB_OAUTH_TOKEN or GITHUB_PAT)."].

(** [while [[ $# -gt 0 ]]; do case $1 in ... esac; done]: the patterns are
    literal, so each [case] is a comparison of strings, the first that fits
    taken. *)
Fixpoint parseArguments (script : string) (SKIP_BUILD : bool)
    (arguments : list string) : Outcome :=
  match arguments with
  | [] => GoesOn SKIP_BUILD
  | argument :: rest =>
      if String.eqb argument "--skip-build" then parseArguments script true rest
      else if String.eqb argument "--help" || String.eqb argument "-h"
      then Exits 0 (usage script)
      else Exits 1 ["Unknown option: " ++ argument;
                    "Use --help for usage information"]
  end.

(** The script from its start: [SKIP_BUILD=false], then the loop. *)
Definition readArguments (script : string) (arguments : list string) : Outcome :=
  parseArguments script false arguments.

End Bash.

Module PowerShell.

Local Open Scope string_scope.

(** *** A line of [.env] (lines 34-38 and 54-58)

    The operator [-match] with the pattern of these lines: from the start of
    the line a first group [[^=]+], the sign [=], a second group [.*] and the
    end [$]; the groups are [$matches[1]] and [$matches[2]].  The
    matcher is the backtracking one of the tool-call pattern, with the greedy
    [*] over a class beside the greedy [+]; a continuation that succeeds
    returns the input at the end of the group it closes. *)

(** [[^=]]. *)
Definition notEquals (c : N) : bool := negb (N.eqb c 61).

(** [.]: every code unit but the line feed. *)
Definition dot (c : N) : bool := negb (N.eqb c 10).

(** Greedy [p*]: as many code units of the class as the continuation allows,
    the most first. *)
Fixpoint starClass (p : N -> bool) (s : jsstring)
    (k : jsstring -> option jsstring) : option jsstring :=
  match s with
  | [] => k []
  | c :: s' =>
      if p c then
        match starClass p s' k with
        | Some rest => Some rest
        | None => k s
        end
      else k s
  end.

(** [$]: the end of the input, or the line feed that ends it. *)
Definition atEnd (s : jsstring) : bool :=
  match s with
  | [] => true
  | [c] => N.eqb c 10
  | _ => false
  end.

(** The second group and the end of the pattern from [s]: the input at the
    end of the group. *)
Definition valueEnd (s : jsstring) : option jsstring :=
  starClass dot s (fun s3 => if atEnd s3 then Some s3 else None).

(** The whole pattern from the start of [line]: the input at the end of the
    first group. *)
Definition nameEnd (line : jsstring) : option jsstring :=
  plusClass notEquals line
    (fun s1 =>
       match s1 with
       | c :: s2 =>
           if N.eqb c 61
           then match valueEnd s2 with Some _ => Some s1 | None => None end
           else None
       | [] => None
       end).

(** The text of [s] before its suffix [rest]. *)
Definition upTo (s rest : jsstring) : jsstring :=
  firstn (length s - length rest) s.

(** The name and the value a line sets, when it matches. *)
Definition envLine (line : jsstring) : option (jsstring * jsstring) :=
  match nameEnd line with
  | Some s1 =>
      match valueEnd (tl s1) with
      | Some s3 => Some (upTo line s1, upTo (tl s1) s3)
      | None => None
      end
  | None => None
  end.

(** [Get-Content ".env" | ForEach-Object { if (...) { SetEnvironmentVariable } }]:
    the calls of [SetEnvironmentVariable], in the order of the lines. *)
Fixpoint assignments (lines : list jsstring) : list (jsstring * jsstring) :=
  match lines with
  | [] => []
  | line :: rest =>
      match envLine line with
      | Some assignment => assignment :: assignments rest
      | None => assignments rest
      end
  end.

End PowerShell.

(** ** The bash launcher from its token line on (lines 84-166)

    The script runs under [set -e]: a command that returns a status other than
    0 ends the script with that status, unless it stands in a condition or
    before [||].  The machine answers the tests and runs the commands; the
    state keeps what [echo] wrote and the commands that ran, each with its
    status, the oldest first.  [echo] is taken to succeed. *)

Module Launcher.

Local Open Scope string_scope.

Record Machine (S : Type) : Type := mkMachine {
  isFile : string -> S -> bool;
  isDirectory : string -> S -> bool;
  pwd : S -> string;
  status : list string -> S -> nat * S;
  output : list string -> S -> string * S
}.

Record State (S : Type) : Type := mkState {
  stdout : list string;
  executed : list (list string * nat);
  machine : S
}.

Inductive Result (A : Type) : Type :=
| Done (a : A)
| Exit (code : nat).
Arguments Done {A} a.
Arguments Exit {A} code.

Definition Sh (S A : Type) : Type := State S -> Result A * State S.

Definition done {S A} (a : A) : Sh S A := fun st => (Done a, st).

Definition andThen {S A B} (c : Sh S A) (k : A -> Sh S B) : Sh S B :=
  fun st =>
    match c st with
    | (Done a, st') => k a st'
    | (Exit code, st') => (Exit code, st')
    end.

(** [exit code]. *)
Definition exit {S A} (code : nat) : Sh S A := fun st => (Exit code, st).

(** [echo line]. *)
Definition echo {S} (line : string) : Sh S unit :=
  fun st =>
    (Done tt, {| stdout := stdout st ++ [line]; executed := executed st;
                 machine := machine st |}).

(** A command that is run for its status, which the state records. *)
Definition run {S} (m : Machine S) (argv : list string) : Sh S nat :=
  fun st =>
    let (code, s) := status m argv (machine st) in
    (Done code, {| stdout := stdout st;
                   executed := executed st ++ [(argv, code)];
                   machine := s |}).

(** A simple command under [set -e]. *)
Definition command {S} (m : Machine S) (argv : list string) : Sh S unit :=
  andThen (run m argv)
          (fun code => match code with O => done tt | S _ => exit code end).

(** [command || true]. *)
Definition commandOrTrue {S} (m : Machine S) (argv : list string) : Sh S unit :=
  andThen (run m argv) (fun _ => done tt).

(** [[ -f path ]] and [[ -d path ]]. *)
Definition testFile {S} (m : Machine S) (path : string) : Sh S bool :=
  fun st => (Done (isFile m path (machine st)), st).

Definition testDirectory {S} (m : Machine S) (path : string) : Sh S bool :=
  fun st => (Done (isDirectory m path (machine st)), st).

(** [pattern] occurs in [text]. *)
Definition contains (text pattern : string) : bool :=
  match String.index 0 pattern text with
  | Some _ => true
  | None => false
  end.

(** The pipeline [producer | grep -q pattern] as the state records it. *)
Definition pipeline (producer : list string) (pattern : string) : list string :=
  (producer ++ ["|"; "grep"; "-q"; pattern])%list.

(** [producer | grep -q pattern] in a condition: the status of the pipeline
    is that of [grep], 0 when a line of the producer's output holds the
    pattern and 1 when none does; the pattern has neither a line feed nor a
    special character. *)
Definition pipedToGrep {S} (m : Machine S) (producer : list string)
    (pattern : string) : Sh S bool :=
  fun st =>
    let (text, s) := output m producer (machine st) in
    let found := contains text pattern in
    (Done found,
     {| stdout := stdout st;
        executed := executed st
                    ++ [(pipeline producer pattern, if found then 0 else 1)];
        machine := s |}).

Declare Scope sh_scope.
Delimit Scope sh_scope with sh.
Notation "x <- c1 ;; c2" := (andThen c1 (fun x => c2))
  (at level 61, c1 at next level, right associativity) : sh_scope.
Notation "c1 ;; c2" := (andThen c1 (fun _ => c2))
  (at level 61, right associativity) : sh_scope.

Definition OUTPUT_DIR : string := "./csharp-simulation-output-ext".

(** The script given to [bash -c] in the container, as the double quotes
    leave it: a backslash at the end of a line joins it with the next. *)
Definition containerScript : string :=
  "
        # Verify .NET is available
        dotnet --version
        echo 'Starting simulation...'

        # Clean and prepare output directory inside container
        cd /workspace
        echo 'Cleaning output directory inside container...'
        rm -rf /workspace/output/csharp-results
        mkdir -p /workspace/output/csharp-results

        # Run the external scenario
        node dist/simulationMain.js             --verbose             --sidebar             --model claude-sonnet-4             -n 1             --external-scenarios ./myscenarios/fix-build             --output /workspace/output/csharp-results             --in-extension-host             --skip-model-cache         2>&1 | tee console.log

    ".

Definition dockerImages : list string :=
  ["docker"; "images"; "vscode-copilot-simulation"].

(** The condition of line 100. *)
Definition findImage : list string :=
  pipeline dockerImages "vscode-copilot-simulation".

Definition dockerBuild : list string :=
  ["docker"; "build"; "-f"; "Dockerfile.simulation"; "-t";
   "vscode-copilot-simulation"; "."].

(** The command of lines 131-160, [directory] being what [$(pwd)] prints. *)
Definition dockerRun (directory GITHUB_OAUTH_TOKEN GITHUB_PAT : string) :
    list string :=
  ["docker"; "run"; "--rm"; "-it";
   "-v"; directory ++ "/" ++ OUTPUT_DIR ++ ":/workspace/output";
   "-v"; directory ++ "/myscenarios:/workspace/myscenarios";
   "-e"; "GITHUB_OAUTH_TOKEN=" ++ GITHUB_OAUTH_TOKEN;
   "-e"; "GITHUB_PAT=" ++ GITHUB_PAT;
   "vscode-copilot-simulation"; "bash"; "-c"; containerScript].

Section Script.

Context {S : Type}.
Variable m : Machine S.
Local Open Scope sh_scope.

(** Lines 95-110. *)
Definition ensureImage (SKIP_BUILD : bool) : Sh S unit :=
  if SKIP_BUILD then
    echo "⏭️  Skipping Docker image build (--skip-build flag used)" ;;
    echo "Using existing vscode-copilot-simulation image..." ;;
    found <- pipedToGrep m dockerImages "vscode-copilot-simulation" ;;
    if negb found then
      echo "❌ Docker image 'vscode-copilot-simulation' not found!" ;;
      echo "   You need to build it first by running this script without --skip-build" ;;
      echo "   or run: docker build -f Dockerfile.simulation -t vscode-copilot-simulation ." ;;
      exit 1
    else
      echo "✅ Found existing Docker image"
  else
    echo "Building Docker image with .NET support..." ;;
    command m dockerBuild.

(** Lines 113-127. *)
Definition prepareOutput : Sh S unit :=
  echo ("Preparing output directory: " ++ OUTPUT_DIR) ;;
  echo "Cleaning output directory..." ;;
  commandOrTrue m ["rm"; "-rf"; OUTPUT_DIR] ;;
  command m ["mkdir"; "-p"; OUTPUT_DIR] ;;
  created <- testDirectory m OUTPUT_DIR ;;
  if created then
    echo ("✅ Successfully created " ++ OUTPUT_DIR)
  else
    echo ("❌ Failed to create " ++ OUTPUT_DIR) ;;
    exit 1.

(** Lines 130-166. *)
Definition runScenario (GITHUB_OAUTH_TOKEN GITHUB_PAT : string) : Sh S unit :=
  echo "Running C# build fix scenario..." ;;
  (fun st => command m (dockerRun (pwd m (machine st)) GITHUB_OAUTH_TOKEN
                                  GITHUB_PAT) st) ;;
  echo "" ;;
  echo ("Scenario complete! Results are in: " ++ OUTPUT_DIR) ;;
  echo "" ;;
  echo "To view results:" ;;
  echo ("  ls " ++ OUTPUT_DIR).

(** The script from line 84 to its end. *)
Definition launch (SKIP_BUILD : bool) (GITHUB_OAUTH_TOKEN GITHUB_PAT : string) :
    Sh S unit :=
  echo "✅ GitHub authentication token available" ;;
  built <- testFile m "dist/simulationMain.js" ;;
  (if negb built then
     echo "❌ simulationMain.js not found. Please build the project first:" ;;
     echo "   npm run compile" ;;
     echo "   or run: ./setup-and-run-csharp-scenario.sh" ;;
     exit 1
   else done tt) ;;
  ensureImage SKIP_BUILD ;;
  prepareOutput ;;
  runScenario GITHUB_OAUTH_TOKEN GITHUB_PAT.

End Script.

(** The status the script ends with. *)
Definition exitStatus {A} (r : Result A) : nat :=
  match r with
  | Done _ => 0
  | Exit code => code
  end.

(** The state in which the script starts on a machine. *)
Definition start {S} (s : S) : State S :=
  {| stdout := []; executed := []; machine := s |}.

(** A machine on which everything is in place and every command succeeds. *)
Definition ready : Machine unit :=
  {| isFile := fun _ _ => true;
     isDirectory := fun _ _ => true;
     pwd := fun _ => "/repo";
     status := fun _ s => (0, s);
     output := fun _ s => ("vscode-copilot-simulation   latest", s) |}.

End Launcher.

Arguments lit : simpl never.
Arguments ofNat : simpl never.
Arguments ofBool : simpl never.
Arguments includes : simpl nomatch.

(** * Properties *)

(** ** Substring search *)

Lemma startsWith_prefix (needle s : jsstring) :
  startsWith s needle = true <-> exists after, s = needle ++ after.
Proof.
  revert s.
  induction needle as [|c needle IH]; intros s.
  - destruct s; simpl; split; eauto.
  - destruct s as [|d s]; simpl.
    + split; [discriminate | intros [after Hs]; discriminate].
    + rewrite andb_true_iff, N.eqb_eq, IH.
      split.
      * intros [-> [after ->]]. now exists after.
      * intros [after Hs]. injection Hs as -> ->. eauto.
Qed.

Lemma includes_Occurs (needle s : jsstring) :
  includes s needle = true <-> Occurs needle s.
Proof.
  unfold Occurs.
  induction s as [|d s IH].
  - cbn [includes]. rewrite orb_false_r, startsWith_prefix.
    split.
    + intros [after Hs]. now exists [], after.
    + intros [[|b before] [after Hs]]; [now exists after | discriminate].
  - cbn [includes]. rewrite orb_true_iff, startsWith_prefix, IH.
    split.
    + intros [[after Hs] | [before [after Hs]]].
      * now exists [], after.
      * exists (d :: before), after. simpl. now rewrite Hs.
    + intros [[|b before] [after Hs]].
      * left. now exists after.
      * right. injection Hs as -> ->. eauto.
Qed.

Lemma includes_false (needle s : jsstring) :
  includes s needle = false <-> ~ Occurs needle s.
Proof.
  rewrite <- includes_Occurs. destruct (includes s needle); intuition congruence.
Qed.

Lemma Occurs_extend (needle t u v : jsstring) :
  Occurs needle t -> Occurs needle (u ++ t ++ v).
Proof.
  intros [before [after ->]].
  exists (u ++ before), (after ++ v).
  now rewrite <- !app_assoc.
Qed.

Lemma includes_extend (needle t u v : jsstring) :
  includes t needle = true -> includes (u ++ t ++ v) needle = true.
Proof.
  rewrite !includes_Occurs. apply Occurs_extend.
Qed.

(** ** The checks and the count *)

Lemma check_extends (check : jsstring -> bool) (t u v : jsstring) :
  In check expectedBehaviors ->
  check t = true -> check (u ++ t ++ v) = true.
Proof.
  intros Hin.
  each_check Hin;
    unfold dotnet_build_command, run_in_terminal_usage, error_analysis,
           file_editing, retry_building;
    rewrite ?orb_true_iff, ?andb_true_iff, ?orb_true_iff;
    intuition auto using includes_extend.
Qed.

Lemma filter_length_mono {A} (p q : A -> bool) (l : list A) :
  (forall x, In x l -> p x = true -> q x = true) ->
  length (filter p l) <= length (filter q l).
Proof.
  induction l as [|x l IH]; intros Hpq; simpl.
  - apply Nat.le_refl.
  - assert (Hl : length (filter p l) <= length (filter q l)).
    { apply IH. intros y Hy. apply Hpq. now right. }
    destruct (p x) eqn:Hp.
    + rewrite (Hpq x (or_introl eq_refl) Hp). simpl. lia.
    + destruct (q x); simpl; lia.
Qed.

Lemma matchedCount_le_total (t : jsstring) (checks : list (jsstring -> bool)) :
  matchedCount t checks <= length checks.
Proof.
  unfold matchedCount, behaviorMatches.
  induction checks as [|check checks IH]; simpl.
  - apply Nat.le_refl.
  - destruct (check t); simpl; lia.
Qed.

Lemma matchedCount_perm (t : jsstring) (C C' : list (jsstring -> bool)) :
  Permutation C C' -> matchedCount t C = matchedCount t C'.
Proof.
  unfold matchedCount, behaviorMatches.
  induction 1 as [ | check l l' _ IH | c1 c2 l | l1 l2 l3 _ IH12 _ IH23 ].
  - reflexivity.
  - simpl. destruct (check t); simpl; congruence.
  - simpl. destruct (c1 t), (c2 t); reflexivity.
  - congruence.
Qed.

Lemma meets_antitone (k1 k2 : Z) (n m : nat) :
  (k1 <= k2)%Z -> n <= m -> meets k2 n = true -> meets k1 m = true.
Proof.
  unfold meets. rewrite !Z.leb_le. lia.
Qed.

Lemma success_evaluate (t : jsstring) (checks : list (jsstring -> bool)) (k : Z) :
  success (evaluate t checks k) = meets k (matchedCount t checks).
Proof. reflexivity. Qed.

Lemma matchedCount_default (t : jsstring) :
  matchedCount t expectedBehaviors =
  Nat.b2n (dotnet_build_command t) + Nat.b2n (run_in_terminal_usage t)
  + Nat.b2n (error_analysis t) + Nat.b2n (file_editing t)
  + Nat.b2n (retry_building t).
Proof.
  unfold matchedCount, behaviorMatches, expectedBehaviors.
  cbn [filter].
  destruct (dotnet_build_command t), (run_in_terminal_usage t),
    (error_analysis t), (file_editing t), (retry_building t); reflexivity.
Qed.

Lemma no_literal_no_match (t : jsstring) :
  (forall needle, In needle expectedSubstrings -> ~ Occurs needle t) ->
  behaviorMatches expectedBehaviors t = [].
Proof.
  intros Hnone.
  assert (Hfalse : forall needle, In needle expectedSubstrings ->
                                  includes t needle = false).
  { intros needle Hin. apply includes_false. now apply Hnone. }
  unfold expectedSubstrings in Hfalse. cbn [In] in Hfalse.
  unfold behaviorMatches, expectedBehaviors. cbn [filter].
  unfold dotnet_build_command, run_in_terminal_usage, error_analysis,
         file_editing, retry_building.
  rewrite !Hfalse by intuition.
  reflexivity.
Qed.

(** ** The callback returns the verdict of [evaluate] *)

Section CallbackFacts.

Context {H E Accessor Runtime : Type}.
Context {Response Turn Commands Confirmations FileTrees : Type}.
Variable host : Host H E Accessor Runtime.

Lemma bind_normal {A B} {c : M H E A} (k : A -> M H E B) {w a w1} :
  c w = (Normal a, w1) -> bind c k w = k a w1.
Proof. intros Hc. unfold bind. now rewrite Hc. Qed.

(** [log] never throws: it writes its line to the console, and whatever the
    runtime's logger does stays in the host. *)
Lemma log_normal (accessor : Accessor) (message : jsstring) (w : World H) :
  exists w',
    log host accessor message w = (Normal tt, w')
    /\ console w' = console w ++ [wrench ++ lit " " ++ message].
Proof.
  unfold log, bind, console_log, tryCatch, liftHost, ret. cbn [console hostState].
  destruct (accessor_get host accessor (hostState w)) as [[testContext | e] h];
    cbn [console hostState].
  - destruct (testContext_log host testContext message h) as [[[] | e] h'];
      eexists; split; reflexivity.
  - eexists; split; reflexivity.
Qed.

Lemma forEachFrom_normal {A} (body : A -> nat -> M H E unit) :
  (forall item index w, exists w', body item index w = (Normal tt, w')) ->
  forall array index w, exists w', forEachFrom body index array w = (Normal tt, w').
Proof.
  intros Hbody array.
  induction array as [|item rest IH]; intros index w; cbn [forEachFrom].
  - now exists w.
  - destruct (Hbody item index w) as [w1 H1].
    rewrite (bind_normal _ H1). apply IH.
Qed.

(** The write of the analysis file never throws, and its last console line
    tells how the write went. *)
Lemma writeAnalysis_normal (accessor : Accessor) (logData : LogData.t) (w : World H) :
  exists w',
    writeAnalysis host accessor logData w = (Normal tt, w')
    /\ console w' =
       console w
       ++ [fileOutputLine host
             (fst (fs_writeFileSync host (logFile host)
                     (JSON_stringify host logData) (hostState w)))].
Proof.
  unfold writeAnalysis, tryCatch, bind, liftHost, fileOutputLine.
  destruct (fs_writeFileSync host (logFile host) (JSON_stringify host logData)
              (hostState w)) as [[[] | e] h]; cbn [fst].
  - destruct (log_normal accessor
                (lit "[FILE-OUTPUT] Analysis written to: " ++ logFile host)
                {| console := console w; hostState := h |}) as [w' [Hlog Hc]].
    rewrite Hlog. eauto.
  - destruct (log_normal accessor
                (lit "[FILE-OUTPUT] Failed to write log: " ++ String_of host e)
                {| console := console w; hostState := h |}) as [w' [Hlog Hc]].
    exists w'. split; [exact Hlog | exact Hc].
Qed.

Lemma timestampNow_normal (w : World H) :
  exists now w', timestampNow host w = (Normal now, w').
Proof.
  unfold timestampNow, liftHost.
  destruct (Date_toISOString host (hostState w)) as [iso h]. eauto.
Qed.

(** From the tool calls on, the callback returns the verdict it was given the
    parts of, whatever the tool calls are; [w1] is the world in which the
    file is written. *)
Lemma reportAndReturn_normal (accessor : Accessor) (fullResponse : jsstring)
    (matches : list (jsstring -> bool)) (ok : bool) (calls : list jsstring)
    (w : World H) :
  exists w1 w' logData,
    reportAndReturn host accessor fullResponse matches ok calls w
    = (Normal (verdictOf ok (length matches) (length expectedBehaviors)), w')
    /\ console w' =
       console w1
       ++ [fileOutputLine host
             (fst (fs_writeFileSync host (logFile host)
                     (JSON_stringify host logData) (hostState w1)))].
Proof.
  unfold reportAndReturn.
  destruct (log_normal accessor
              (lit "[TOOL-CALLS] Found tool calls: " ++ join (lit ", ") calls) w)
    as [wa [Ha _]].
  rewrite (bind_normal _ Ha).
  destruct (timestampNow_normal wa) as [now [wb Hb]].
  rewrite (bind_normal _ Hb). cbv zeta.
  match goal with
  | |- context [writeAnalysis host accessor ?d] =>
      destruct (writeAnalysis_normal accessor d wb) as [wc [Hc Hconsole]];
      exists wb, wc, d
  end.
  rewrite (bind_normal _ Hc). split; [reflexivity | exact Hconsole].
Qed.

(** The callback ends normally, with the verdict of [evaluate] on the five
    checks at threshold 2. *)
Lemma validationCallback_normal (accessor : Accessor) (question : jsstring)
    (response : Response) (fullResponse : jsstring) (turn : Turn) (index : nat)
    (commands : Commands) (confirmations : Confirmations) (fileTrees : FileTrees)
    (w : World H) :
  exists w1 w' logData,
    validationCallback host accessor question response fullResponse turn index
                       commands confirmations fileTrees w
    = (Normal (evaluate fullResponse expectedBehaviors 2), w')
    /\ console w' =
       console w1
       ++ [fileOutputLine host
             (fst (fs_writeFileSync host (logFile host)
                     (JSON_stringify host logData) (hostState w1)))].
Proof.
  unfold validationCallback.
  unfold bind at 1. unfold console_log at 1.
  unfold bind at 1. unfold console_log at 1.
  cbv zeta.
  match goal with
  | |- context [bind (log host accessor ?m) _ ?w0] =>
      destruct (log_normal accessor m w0) as [wa [Ha _]]
  end.
  rewrite (bind_normal _ Ha).
  match goal with
  | |- context [bind (log host accessor ?m) _ wa] =>
      destruct (log_normal accessor m wa) as [wb [Hb _]]
  end.
  rewrite (bind_normal _ Hb).
  match goal with
  | |- context [bind (forEach ?body ?checks) _ wb] =>
      assert (Hbody : forall item i w0, exists w0', body item i w0 = (Normal tt, w0'));
      [ | destruct (forEachFrom_normal body Hbody checks 0 wb) as [wc Hc] ]
  end.
  { intros item i w0. cbv beta zeta.
    match goal with
    | |- context [log host accessor ?m w0] =>
        destruct (log_normal accessor m w0) as [w0' [H0 _]]
    end.
    now exists w0'. }
  unfold forEach. rewrite (bind_normal _ Hc).
  apply reportAndReturn_normal.
Qed.

End CallbackFacts.

(** ** What the tool-call pattern matches

    At a position, the pattern matches a non-empty run of word characters
    that an opening parenthesis follows, the parenthesis included.  The
    underscore is a word character, so the first alternative matches nothing
    the second does not. *)

Lemma plusClass_sound (p : N -> bool) (k : jsstring -> option jsstring)
    (s rest : jsstring) :
  plusClass p s k = Some rest ->
  exists run s1,
    run <> [] /\ forallb p run = true /\ s = run ++ s1 /\ k s1 = Some rest.
Proof.
  induction s as [|c s IH]; cbn [plusClass]; [discriminate | ].
  destruct (p c) eqn:Hc; [ | discriminate].
  destruct (plusClass p s k) as [r | ] eqn:Hplus.
  - intros [= ->].
    destruct (IH eq_refl) as (run & s1 & _ & Hrun & -> & Hk).
    exists (c :: run), s1. cbn [forallb]. rewrite Hc, Hrun.
    repeat split; [discriminate | exact Hk].
  - intros Hk. exists [c], s. cbn [forallb]. rewrite Hc.
    repeat split; [discriminate | exact Hk].
Qed.

Lemma paren_inv (s rest : jsstring) :
  paren s = Some rest <-> s = 40%N :: rest.
Proof.
  unfold paren, charIs. cbn [matcher].
  destruct s as [|c s]; [split; discriminate | ].
  destruct (N.eqb_spec c 40) as [-> | Hneq].
  - split; intros [= ->]; reflexivity.
  - split; [discriminate | intros [= Hc _]; contradiction].
Qed.

Lemma plusClass_word_paren (s rest : jsstring) :
  plusClass wordChar s paren = Some rest <->
  exists run, run <> [] /\ forallb wordChar run = true /\ s = run ++ 40%N :: rest.
Proof.
  split.
  - intros Hplus.
    destruct (plusClass_sound _ _ _ Hplus) as (run & s1 & Hne & Hrun & -> & Hk).
    apply paren_inv in Hk. subst s1. now exists run.
  - intros (run & Hne & Hrun & ->).
    induction run as [|c run IH]; [contradiction | ].
    cbn [forallb] in Hrun. apply andb_true_iff in Hrun as [Hc Hrun].
    cbn [app plusClass]. rewrite Hc.
    destruct run as [|d run].
    + cbn [app plusClass].
      replace (wordChar 40) with false by reflexivity.
      now apply paren_inv.
    + rewrite IH; [reflexivity | discriminate | exact Hrun].
Qed.

Lemma toolCallPattern_second_alternative (s : jsstring) :
  matcher toolCallPattern s Some = plusClass wordChar s paren.
Proof.
  unfold toolCallPattern. cbn [matcher]. fold paren.
  match goal with
  | |- match ?first with _ => _ end = _ => destruct first as [rest | ] eqn:Hfirst
  end; [ | reflexivity].
  symmetry. apply plusClass_word_paren.
  destruct (plusClass_sound _ _ _ Hfirst) as (run1 & s1 & Hne & Hrun1 & -> & Hk).
  destruct s1 as [|c s2]; [discriminate | ].
  unfold charIs in Hk.
  destruct (N.eqb_spec c 95) as [-> | ]; [ | discriminate].
  apply plusClass_word_paren in Hk as (run2 & _ & Hrun2 & ->).
  exists (run1 ++ 95%N :: run2).
  repeat split.
  - destruct run1; discriminate.
  - rewrite forallb_app. cbn [forallb]. rewrite Hrun1, Hrun2. reflexivity.
  - now rewrite <- app_assoc.
Qed.

Lemma matchAt_toolCall (s m : jsstring) :
  matchAt toolCallPattern s = Some m <->
  exists run rest,
    run <> [] /\ forallb wordChar run = true
    /\ s = run ++ 40%N :: rest /\ m = run ++ [40%N].
Proof.
  unfold matchAt. rewrite toolCallPattern_second_alternative.
  assert (Hcut : forall run rest : jsstring,
             firstn (length (run ++ 40%N :: rest) - length rest)
                    (run ++ 40%N :: rest) = run ++ [40%N]).
  { intros run rest.
    replace (run ++ 40%N :: rest) with ((run ++ [40%N]) ++ rest)
      by now rewrite <- app_assoc.
    rewrite length_app, Nat.add_sub.
    rewrite firstn_app, Nat.sub_diag, firstn_all. cbn [firstn].
    now rewrite app_nil_r. }
  split.
  - destruct (plusClass wordChar s paren) as [rest | ] eqn:Hplus; [ | discriminate].
    intros [= <-].
    apply plusClass_word_paren in Hplus as (run & Hne & Hrun & ->).
    exists run, rest. now rewrite Hcut.
  - intros (run & rest & Hne & Hrun & -> & ->).
    assert (Hplus : plusClass wordChar (run ++ 40%N :: rest) paren = Some rest).
    { apply plusClass_word_paren. now exists run. }
    now rewrite Hplus, Hcut.
Qed.

(** ** What the callback writes *)

Lemma list_ascii_of_string_append (a b : string) :
  list_ascii_of_string (a ++ b)
  = list_ascii_of_string a ++ list_ascii_of_string b.
Proof.
  induction a as [|c a IH]; [reflexivity | ].
  cbn [String.append list_ascii_of_string app]. now rewrite IH.
Qed.

Lemma lit_append (a b : string) : lit (a ++ b) = lit a ++ lit b.
Proof.
  unfold lit. now rewrite list_ascii_of_string_append, map_app.
Qed.

Unset Implicit Arguments.

Section CallbackTrace.

Context {H E Accessor Runtime : Type}.
Context {Response Turn Commands Confirmations FileTrees : Type}.
Variable host : Host H E Accessor Runtime.

Lemma forEachFrom_console {A} (body : A -> nat -> M H E unit)
    (line : A -> nat -> jsstring) :
  (forall item index w,
      exists w', body item index w = (Normal tt, w')
                 /\ console w' = console w ++ [line item index]) ->
  forall array index w,
    exists w', forEachFrom body index array w = (Normal tt, w')
               /\ console w' = console w ++ linesFrom line index array.
Proof.
  intros Hbody array.
  induction array as [|item rest IH]; intros index w;
    cbn [forEachFrom linesFrom].
  - exists w. now rewrite app_nil_r.
  - destruct (Hbody item index w) as [w1 [H1 Hc1]].
    rewrite (bind_normal _ H1).
    destruct (IH (S index) w1) as [w2 [H2 Hc2]].
    exists w2. split; [exact H2 | ].
    now rewrite Hc2, Hc1, <- app_assoc.
Qed.

(** The run of the callback, step by step: the report on the console, the
    timestamp taken from the clock, then the write of the analysis. *)
Lemma validationCallback_trace (accessor : Accessor) (question : jsstring)
    (response : Response) (fullResponse : jsstring) (turn : Turn) (index : nat)
    (commands : Commands) (confirmations : Confirmations) (fileTrees : FileTrees)
    (w : World H) :
  exists w0 w1 w',
    validationCallback host accessor question response fullResponse turn index
                       commands confirmations fileTrees w
    = (Normal (evaluate fullResponse expectedBehaviors 2), w')
    /\ console w0 = console w ++ consoleReport fullResponse
    /\ timestampNow host w0
       = (Normal (fst (Date_toISOString host (hostState w0))), w1)
    /\ console w1 = console w0
    /\ writeAnalysis host accessor
         (analysisOf (fst (Date_toISOString host (hostState w0))) fullResponse) w1
       = (Normal tt, w').
Proof.
  unfold validationCallback.
  unfold bind at 1. unfold console_log at 1.
  unfold bind at 1. unfold console_log at 1.
  cbv zeta.
  match goal with
  | |- context [bind (log host accessor ?m) _ ?w0] =>
      destruct (log_normal host accessor m w0) as [wa [Ha Hca]]
  end.
  rewrite (bind_normal _ Ha).
  match goal with
  | |- context [bind (log host accessor ?m) _ wa] =>
      destruct (log_normal host accessor m wa) as [wb [Hb Hcb]]
  end.
  rewrite (bind_normal _ Hb).
  match goal with
  | |- context [bind (forEach ?body ?checks) _ wb] =>
      destruct (forEachFrom_console body
                  (fun (behavior : jsstring -> bool) (i : nat) =>
                     logged (lit "[BEHAVIOR-CHECK] "
                             ++ nth i behaviorNames (lit "undefined") ++ lit ": "
                             ++ (if behavior fullResponse
                                 then checkMark else crossMark))))
        with (array := checks) (index := 0) (w := wb) as [wc [Hc Hcc]]
  end.
  { intros item i w0. cbv beta zeta.
    match goal with
    | |- context [log host accessor ?m w0] =>
        destruct (log_normal host accessor m w0) as [w0' [H0 Hc0]]
    end.
    exists w0'. split; [exact H0 | exact Hc0]. }
  unfold forEach. rewrite (bind_normal _ Hc).
  unfold reportAndReturn.
  match goal with
  | |- context [bind (log host accessor ?m) _ wc] =>
      destruct (log_normal host accessor m wc) as [wd [Hd Hcd]]
  end.
  rewrite (bind_normal _ Hd).
  assert (Hnow : exists we,
             timestampNow host wd
             = (Normal (fst (Date_toISOString host (hostState wd))), we)
             /\ console we = console wd).
  { unfold timestampNow, liftHost.
    destruct (Date_toISOString host (hostState wd)) as [iso h]. cbn [fst].
    eexists. split; reflexivity. }
  destruct Hnow as [we [He Hce]].
  rewrite (bind_normal _ He). cbv zeta.
  match goal with
  | |- context [writeAnalysis host accessor ?d] =>
      destruct (writeAnalysis_normal host accessor d we) as [wf [Hf _]]
  end.
  rewrite (bind_normal _ Hf).
  exists wd, we, wf.
  split; [reflexivity | ].
  split.
  { rewrite Hcd, Hcc, Hcb, Hca. cbn [console].
    unfold consoleReport, logged. cbv zeta.
    rewrite <- !app_assoc. reflexivity. }
  split; [exact He | ].
  split; [exact Hce | exact Hf].
Qed.

End CallbackTrace.

(** ** The claims *)

Unset Implicit Arguments.

Section Claims.

Context {H E Accessor Runtime : Type}.
Context {Response Turn Commands Confirmations FileTrees : Type}.

(** C1. For every transcript, the number of matches the callback works with
    ([behaviorMatches.length]) is the number of the five checks that are true
    on the transcript, and the callback returns [success = true] exactly when
    that number is at least 2. *)
Theorem matchedCount_counts_true_checks
    (host : Host H E Accessor Runtime) (accessor : Accessor)
    (question : jsstring) (response : Response) (fullResponse : jsstring)
    (turn : Turn) (index : nat) (commands : Commands)
    (confirmations : Confirmations) (fileTrees : FileTrees) (w : World H) :
  matchedCount fullResponse expectedBehaviors =
    Nat.b2n (dotnet_build_command fullResponse)
    + Nat.b2n (run_in_terminal_usage fullResponse)
    + Nat.b2n (error_analysis fullResponse)
    + Nat.b2n (file_editing fullResponse)
    + Nat.b2n (retry_building fullResponse)
  /\ exists v w',
       validationCallback host accessor question response fullResponse turn
                          index commands confirmations fileTrees w
       = (Normal v, w')
       /\ (success v = true <-> 2 <= matchedCount fullResponse expectedBehaviors).
Proof.
  split.
  - apply matchedCount_default.
  - destruct (validationCallback_normal host accessor question response
                fullResponse turn index commands confirmations fileTrees w)
      as (w1 & w' & d & Hrun & _).
    exists (evaluate fullResponse expectedBehaviors 2), w'.
    split; [exact Hrun | ].
    rewrite success_evaluate. unfold meets. rewrite Z.leb_le. lia.
Qed.

(** C2. On "Running dotnet build now. error CS1002 found." the build check and
    the error-analysis check are true and the three others false, two checks
    match, and the callback returns [success = true] with no error message. *)
Theorem buildAndError_two_matches
    (host : Host H E Accessor Runtime) (accessor : Accessor)
    (question : jsstring) (response : Response) (turn : Turn) (index : nat)
    (commands : Commands) (confirmations : Confirmations)
    (fileTrees : FileTrees) (w : World H) :
  map (fun check => check buildAndErrorTranscript) expectedBehaviors
    = [true; false; true; false; false]
  /\ matchedCount buildAndErrorTranscript expectedBehaviors = 2
  /\ fst (validationCallback host accessor question response
            buildAndErrorTranscript turn index commands confirmations fileTrees w)
     = Normal {| success := true; errorMessage := None |}.
Proof.
  split; [ | split ].
  - vm_compute. reflexivity.
  - vm_compute. reflexivity.
  - destruct (validationCallback_normal host accessor question response
                buildAndErrorTranscript turn index commands confirmations
                fileTrees w) as (w1 & w' & d & Hrun & _).
    rewrite Hrun. cbn [fst]. f_equal.
Qed.

(** C3. The returned [errorMessage] is absent when [success] is true.  When
    [success] is false it is present and states the counts: it is the text
    "Expected agent to demonstrate C# build-fix behaviors, but only N out of
    5 behaviors were found", N being the number of matches in decimal, 0 or
    1 on a failing run.  For all counts the message is this text with the two
    numbers in decimal, a function of the two counts and of nothing else. *)
Theorem errorMessage_only_on_failure
    (host : Host H E Accessor Runtime) (accessor : Accessor)
    (question : jsstring) (response : Response) (fullResponse : jsstring)
    (turn : Turn) (index : nat) (commands : Commands)
    (confirmations : Confirmations) (fileTrees : FileTrees) (w : World H) :
  exists v w',
    validationCallback host accessor question response fullResponse turn
                       index commands confirmations fileTrees w
    = (Normal v, w')
    /\ (success v = true -> errorMessage v = None)
    /\ (success v = false ->
        errorMessage v =
          Some (failureMessage (matchedCount fullResponse expectedBehaviors)
                               (length expectedBehaviors))
        /\ ((matchedCount fullResponse expectedBehaviors = 0
             /\ errorMessage v =
                Some (map N_of_ascii
                        (list_ascii_of_string
                           "Expected agent to demonstrate C# build-fix behaviors, but only 0 out of 5 behaviors were found")))
            \/ (matchedCount fullResponse expectedBehaviors = 1
                /\ errorMessage v =
                   Some (map N_of_ascii
                           (list_ascii_of_string
                              "Expected agent to demonstrate C# build-fix behaviors, but only 1 out of 5 behaviors were found")))))
    /\ (forall matched total : nat,
          failureMessage matched total
          = map N_of_ascii
              (list_ascii_of_string
                 ("Expected agent to demonstrate C# build-fix behaviors, but only "
                  ++ NilZero.string_of_uint (Nat.to_uint matched)
                  ++ " out of "
                  ++ NilZero.string_of_uint (Nat.to_uint total)
                  ++ " behaviors were found"))).
Proof.
  destruct (validationCallback_normal host accessor question response
              fullResponse turn index commands confirmations fileTrees w)
    as (w1 & w' & d & Hrun & _).
  exists (evaluate fullResponse expectedBehaviors 2), w'.
  split; [exact Hrun | ].
  unfold evaluate, verdictOf. cbn [success errorMessage].
  split; [intros ->; reflexivity | split].
  - intros Hfails. rewrite Hfails. split; [reflexivity | ].
    unfold meets in Hfails. apply Z.leb_gt in Hfails.
    destruct (matchedCount fullResponse expectedBehaviors) as [|[|n]]; [ | | lia].
    + left. split; reflexivity.
    + right. split; reflexivity.
  - intros matched total. unfold failureMessage, ofNat.
    rewrite <- !lit_append. reflexivity.
Qed.

(** C6. The verdict depends on [fullResponse] alone: two invocations on the
    same transcript return the same [{success, errorMessage}], whatever the
    host, the world and the other eight arguments are. *)
Theorem verdict_depends_only_on_fullResponse
    (fullResponse : jsstring)
    (host1 host2 : Host H E Accessor Runtime) (accessor1 accessor2 : Accessor)
    (question1 question2 : jsstring) (response1 response2 : Response)
    (turn1 turn2 : Turn) (index1 index2 : nat) (commands1 commands2 : Commands)
    (confirmations1 confirmations2 : Confirmations)
    (fileTrees1 fileTrees2 : FileTrees) (w1 w2 : World H) :
  fst (validationCallback host1 accessor1 question1 response1 fullResponse
         turn1 index1 commands1 confirmations1 fileTrees1 w1)
  = fst (validationCallback host2 accessor2 question2 response2 fullResponse
           turn2 index2 commands2 confirmations2 fileTrees2 w2).
Proof.
  destruct (validationCallback_normal host1 accessor1 question1 response1
              fullResponse turn1 index1 commands1 confirmations1 fileTrees1 w1)
    as (_ & w1' & _ & Hrun1 & _).
  destruct (validationCallback_normal host2 accessor2 question2 response2
              fullResponse turn2 index2 commands2 confirmations2 fileTrees2 w2)
    as (_ & w2' & _ & Hrun2 & _).
  now rewrite Hrun1, Hrun2.
Qed.

(** C7. A failure of the write of the analysis file is caught and logged,
    and it does not reach the caller.  On every host the callback ends
    normally with the verdict of the transcript; its last steps are the
    timestamp and then, in a world [w1], the write of the analysis.  When the
    write throws a value in [w1], be it for this file only or for this state
    only, the callback adds to the console the line that reports this value,
    and nothing else.  The returned verdict is the one every other run on the
    same transcript returns, a run whose write succeeds included. *)
Theorem write_failure_caught_and_logged
    (host : Host H E Accessor Runtime) (accessor : Accessor)
    (question : jsstring) (response : Response) (fullResponse : jsstring)
    (turn : Turn) (index : nat) (commands : Commands)
    (confirmations : Confirmations) (fileTrees : FileTrees) (w : World H) :
  exists now w0 w1 w',
    validationCallback host accessor question response fullResponse turn
                       index commands confirmations fileTrees w
    = (Normal (evaluate fullResponse expectedBehaviors 2), w')
    /\ console w0 = console w ++ consoleReport fullResponse
    /\ timestampNow host w0 = (Normal now, w1)
    /\ console w1 = console w0
    /\ writeAnalysis host accessor (analysisOf now fullResponse) w1
       = (Normal tt, w')
    /\ (forall e h,
          fs_writeFileSync host (logFile host)
            (JSON_stringify host (analysisOf now fullResponse)) (hostState w1)
          = (Throw e, h) ->
          console w' =
            console w1
            ++ [wrench ++ lit " " ++ lit "[FILE-OUTPUT] Failed to write log: "
                ++ String_of host e])
    /\ forall (host' : Host H E Accessor Runtime) accessor' question'
              (response' : Response) (turn' : Turn) index'
              (commands' : Commands) (confirmations' : Confirmations)
              (fileTrees' : FileTrees) w0',
         fst (validationCallback host' accessor' question' response'
                fullResponse turn' index' commands' confirmations' fileTrees' w0')
         = Normal (evaluate fullResponse expectedBehaviors 2).
Proof.
  destruct (validationCallback_trace host accessor question response
              fullResponse turn index commands confirmations fileTrees w)
    as (w0 & w1 & w' & Hrun & Hreport & Hclock & Hsame & Hwrite).
  exists (fst (Date_toISOString host (hostState w0))), w0, w1, w'.
  repeat (split; [assumption | ]).
  split.
  - intros e h Hthrows.
    destruct (writeAnalysis_normal host accessor
                (analysisOf (fst (Date_toISOString host (hostState w0)))
                            fullResponse) w1) as (w'' & Hwrite' & Hline).
    rewrite Hwrite in Hwrite'. injection Hwrite' as <-.
    rewrite Hline, Hthrows. reflexivity.
  - intros host' accessor' question' response' turn' index' commands'
           confirmations' fileTrees' w0'.
    destruct (validationCallback_normal host' accessor' question' response'
                fullResponse turn' index' commands' confirmations' fileTrees' w0')
      as (_ & w2 & _ & Hrun' & _).
    now rewrite Hrun'.
Qed.

(** C8. The callback is total: on every transcript, the empty one included, it
    ends normally with a verdict.  A transcript in which none of the literals
    of the checks occurs matches no check, and its verdict is the failure with
    0 matches out of 5. *)
Theorem validationCallback_total
    (host : Host H E Accessor Runtime) (accessor : Accessor)
    (question : jsstring) (response : Response) (fullResponse : jsstring)
    (turn : Turn) (index : nat) (commands : Commands)
    (confirmations : Confirmations) (fileTrees : FileTrees) (w : World H) :
  exists v w',
    validationCallback host accessor question response fullResponse turn
                       index commands confirmations fileTrees w
    = (Normal v, w')
    /\ ((forall needle, In needle expectedSubstrings ->
                        ~ Occurs needle fullResponse) ->
        behaviorMatches expectedBehaviors fullResponse = []
        /\ v = {| success := false; errorMessage := Some (failureMessage 0 5) |}).
Proof.
  destruct (validationCallback_normal host accessor question response
              fullResponse turn index commands confirmations fileTrees w)
    as (w1 & w' & d & Hrun & _).
  exists (evaluate fullResponse expectedBehaviors 2), w'.
  split; [exact Hrun | ].
  intros Hnone.
  assert (Hno : behaviorMatches expectedBehaviors fullResponse = []).
  { apply no_literal_no_match. exact Hnone. }
  split; [exact Hno | ].
  unfold evaluate, matchedCount. rewrite Hno. reflexivity.
Qed.

(** C9. On "run_in_terminal(cmd) then replace_string_in_file(a,b)" the
    extraction yields "run_in_terminal(" then "replace_string_in_file(", and
    the verdict the callback returns does not depend on the extracted calls:
    with any other array in their place the returned value is the same. *)
Theorem toolCalls_extracted_and_not_scored
    (host : Host H E Accessor Runtime) (accessor : Accessor)
    (fullResponse : jsstring) (matches : list (jsstring -> bool)) (ok : bool)
    (calls1 calls2 : list jsstring) (w : World H) :
  toolCallMatches toolCallTranscript
    = [lit "run_in_terminal("; lit "replace_string_in_file("]
  /\ fst (reportAndReturn host accessor fullResponse matches ok calls1 w)
     = fst (reportAndReturn host accessor fullResponse matches ok calls2 w).
Proof.
  split.
  - vm_compute. reflexivity.
  - destruct (reportAndReturn_normal host accessor fullResponse matches ok calls1 w)
      as (_ & w1' & _ & Hrun1 & _).
    destruct (reportAndReturn_normal host accessor fullResponse matches ok calls2 w)
      as (_ & w2' & _ & Hrun2 & _).
    now rewrite Hrun1, Hrun2.
Qed.

End Claims.

(** C4. The number of matches does not depend on the order of the checks: a
    permutation of the checklist gives the same count, and with it the same
    verdict, at every threshold. *)
Theorem matchedCount_order_independent
    (t : jsstring) (C C' : list (jsstring -> bool)) (k : Z) :
  Permutation C C' ->
  matchedCount t C = matchedCount t C'
  /\ matchedCount t C = length (filter (fun check => check t) C)
  /\ evaluate t C k = evaluate t C' k.
Proof.
  intros Hperm.
  pose proof (matchedCount_perm t Hperm) as Hcount.
  split; [exact Hcount | split; [reflexivity | ] ].
  unfold evaluate. now rewrite Hcount, (Permutation_length Hperm).
Qed.

(** C5. Success is antitone in the threshold: a transcript that succeeds at a
    threshold succeeds at every lower one. *)
Theorem success_antitone_in_threshold
    (t : jsstring) (C : list (jsstring -> bool)) (k1 k2 : Z) :
  (k1 <= k2)%Z ->
  success (evaluate t C k2) = true ->
  success (evaluate t C k1) = true.
Proof.
  rewrite !success_evaluate. intros Hk.
  now apply meets_antitone.
Qed.

(** C10. Text added before or after a transcript takes no match away: each
    of the five checks that is true on [t] is true on [u ++ t ++ v], so the
    number of matches does not decrease and a success stays a success. *)
Theorem checks_monotone_under_extension (t u v : jsstring) :
  (forall check, In check expectedBehaviors ->
                 check t = true -> check (u ++ t ++ v) = true)
  /\ matchedCount t expectedBehaviors
     <= matchedCount (u ++ t ++ v) expectedBehaviors
  /\ (success (evaluate t expectedBehaviors 2) = true ->
      success (evaluate (u ++ t ++ v) expectedBehaviors 2) = true).
Proof.
  assert (Hchecks : forall check, In check expectedBehaviors ->
                      check t = true -> check (u ++ t ++ v) = true).
  { intros check Hin. now apply check_extends. }
  assert (Hcount : matchedCount t expectedBehaviors
                   <= matchedCount (u ++ t ++ v) expectedBehaviors).
  { unfold matchedCount, behaviorMatches. now apply filter_length_mono. }
  split; [exact Hchecks | split; [exact Hcount | ] ].
  rewrite !success_evaluate.
  apply meets_antitone; [apply Z.le_refl | exact Hcount].
Qed.

(** ** The claims at concrete inputs *)

(** The checks in the order [terminal, build, ...] against the source's
    [build, terminal, ...]: two matches on the build-and-error transcript
    either way. *)
Lemma matchedCount_order_independent_witness :
  matchedCount buildAndErrorTranscript expectedBehaviors
  = matchedCount buildAndErrorTranscript
      [run_in_terminal_usage; dotnet_build_command; error_analysis;
       file_editing; retry_building].
Proof.
  apply (matchedCount_order_independent buildAndErrorTranscript
           expectedBehaviors
           [run_in_terminal_usage; dotnet_build_command; error_analysis;
            file_editing; retry_building] 2).
  unfold expectedBehaviors. apply perm_swap.
Defined.

(** Two matches succeed at threshold 2, hence at threshold 1. *)
Lemma success_antitone_in_threshold_witness :
  success (evaluate buildAndErrorTranscript expectedBehaviors 1) = true.
Proof.
  apply (success_antitone_in_threshold buildAndErrorTranscript
           expectedBehaviors 1 2).
  - lia.
  - vm_compute. reflexivity.
Defined.

(** A run on a host where only the analysis file cannot be written, its path
    being a directory: the write throws, the last console line reports it,
    and the callback returns the failure verdict of the transcript without
    any signal. *)
Lemma write_failure_caught_and_logged_witness :
  exists w',
    DirectoryHost.run true noSignalTranscript
    = (Normal (evaluate noSignalTranscript expectedBehaviors 2), w')
    /\ last (console w') []
       = wrench ++ lit " [FILE-OUTPUT] Failed to write log: Error: EISDIR: illegal operation on a directory, open"
    /\ fst (DirectoryHost.writeFileSync (lit "/tmp/other.json") []
              (hostState TestHost.initial)) = Normal tt.
Proof.
  destruct (write_failure_caught_and_logged DirectoryHost.host true
              (lit "fix the build") tt noSignalTranscript tt 0 tt tt tt
              TestHost.initial)
    as (now & w0 & w1 & w' & Hrun & _ & _ & _ & _ & Hlogged & _).
  exists w'. split; [exact Hrun | split; [ | reflexivity] ].
  rewrite (Hlogged (lit "EISDIR: illegal operation on a directory, open")
                   (hostState w1)) by reflexivity.
  now rewrite last_last.
Defined.

(** "Looking at the file." holds none of the twelve literals: no check
    matches, and the run returns the failure verdict. *)
Lemma validationCallback_total_witness :
  exists w',
    TestHost.run true false noSignalTranscript
    = (Normal {| success := false; errorMessage := Some (failureMessage 0 5) |}, w').
Proof.
  destruct (validationCallback_total (TestHost.host false) true
              (lit "fix the build") tt noSignalTranscript tt 0 tt tt tt
              TestHost.initial)
    as (v & w' & Hrun & Hnone).
  destruct Hnone as [_ ->].
  - intros needle Hin. apply includes_false.
    unfold expectedSubstrings in Hin. cbn [In] in Hin.
    repeat (destruct Hin as [<- | Hin]; [vm_compute; reflexivity | ]).
    contradiction.
  - exists w'. exact Hrun.
Defined.

(** Text around the build-and-error transcript keeps its success. *)
Lemma checks_monotone_under_extension_witness :
  success (evaluate (lit "Step 1. " ++ buildAndErrorTranscript ++ lit " Done.")
                    expectedBehaviors 2) = true.
Proof.
  apply (proj2 (proj2 (checks_monotone_under_extension
                         buildAndErrorTranscript (lit "Step 1. ") (lit " Done.")))).
  vm_compute. reflexivity.
Defined.

(** The other scenarios and boundaries of the specification. *)
Example all_five_match :
  matchedCount
    (lit "I'll run dotnet build in the terminal. I see error CS0103. Let me edit the file to fix it, then build again.")
    expectedBehaviors = 5.
Proof. vm_compute. reflexivity. Qed.

Example empty_transcript :
  evaluate [] expectedBehaviors 2
  = {| success := false; errorMessage := Some (failureMessage 0 5) |}
  /\ toolCallMatches [] = [].
Proof. split; vm_compute; reflexivity. Qed.

Example capital_B_is_not_building :
  dotnet_build_command (lit "Building the project") = false
  /\ dotnet_build_command (lit "building the project") = true.
Proof. split; vm_compute; reflexivity. Qed.

Example writable_run_keeps_the_file :
  map fst (TestHost.files (hostState (snd (TestHost.run false false noSignalTranscript))))
  = [lit "/scenarios/fix-build/debug-analysis.json"]
  /\ fst (TestHost.run false false noSignalTranscript)
     = fst (TestHost.run true true noSignalTranscript).
Proof. split; vm_compute; reflexivity. Qed.

(** * Beyond the claims *)

(** ** The extraction of tool calls *)

Lemma toolCallMatches_scan (t : jsstring) :
  toolCallMatches t = scan toolCallPattern 0 t.
Proof.
  unfold toolCallMatches, matchGlobal.
  now destruct (scan toolCallPattern 0 t).
Qed.

Lemma wordChar_not_paren (c : N) : wordChar c = true -> N.eqb c 40 = false.
Proof.
  intros Hc. destruct (N.eqb_spec c 40) as [-> | ]; [discriminate | reflexivity].
Qed.

Lemma scan_skip (r : regex) (pre rest : jsstring) :
  scan r (length pre) (pre ++ rest) = scan r 0 rest.
Proof.
  induction pre as [|c pre IH]; [reflexivity | exact IH].
Qed.

Lemma scan_hit (run rest : jsstring) :
  run <> [] -> forallb wordChar run = true ->
  scan toolCallPattern 0 (run ++ 40%N :: rest)
  = (run ++ [40%N]) :: scan toolCallPattern 0 rest.
Proof.
  intros Hne Hrun.
  assert (Hm : matchAt toolCallPattern (run ++ 40%N :: rest) = Some (run ++ [40%N])).
  { apply matchAt_toolCall. now exists run, rest. }
  destruct run as [|c run]; [contradiction | ].
  cbn [app] in *. cbn [scan]. rewrite Hm. f_equal.
  replace (length (c :: run ++ [40%N]) - 1) with (length (run ++ [40%N]))
    by (cbn [length]; lia).
  replace (run ++ 40%N :: rest) with ((run ++ [40%N]) ++ rest)
    by now rewrite <- app_assoc.
  apply scan_skip.
Qed.

Lemma scan_miss (c : N) (s : jsstring) :
  matchAt toolCallPattern (c :: s) = None ->
  scan toolCallPattern 0 (c :: s) = scan toolCallPattern 0 s.
Proof.
  intros Hm. cbn [scan]. now rewrite Hm.
Qed.

(** The scan of a transcript goes by one of two steps: over a call, a run of
    word characters with its parenthesis, or over one code unit at which no
    call starts. *)
Lemma toolCall_scan_ind (P : jsstring -> list jsstring -> Prop) :
  P [] [] ->
  (forall run rest ms,
      run <> [] -> forallb wordChar run = true ->
      P rest ms -> P (run ++ 40%N :: rest) ((run ++ [40%N]) :: ms)) ->
  (forall c s ms,
      matchAt toolCallPattern (c :: s) = None -> P s ms -> P (c :: s) ms) ->
  forall s, P s (scan toolCallPattern 0 s).
Proof.
  intros Hnil Hhit Hmiss s.
  remember (length s) as n eqn:Hn.
  revert s Hn.
  induction n as [n IH] using lt_wf_ind.
  intros [|c s] Hn.
  - exact Hnil.
  - destruct (matchAt toolCallPattern (c :: s)) as [m | ] eqn:Hm.
    + apply matchAt_toolCall in Hm as (run & rest & Hne & Hrun & Hs & _).
      rewrite Hs, scan_hit by assumption.
      apply Hhit; try assumption.
      apply (IH (length rest)); [ | reflexivity].
      rewrite Hn, Hs, length_app. cbn [length]. lia.
    + rewrite scan_miss by exact Hm.
      apply Hmiss; [exact Hm | ].
      apply (IH (length s)); [ | reflexivity].
      rewrite Hn. cbn [length]. lia.
Qed.

Lemma countCalls_hit (run rest : jsstring) :
  run <> [] -> forallb wordChar run = true ->
  countCalls (run ++ 40%N :: rest) = S (countCalls rest).
Proof.
  induction run as [|c run IH]; [contradiction | ].
  intros _ Hrun. cbn [forallb] in Hrun.
  apply andb_true_iff in Hrun as [Hc Hrun].
  destruct run as [|d run].
  - cbn [app countCalls]. rewrite Hc, N.eqb_refl. cbn [andb].
    destruct rest as [|e rest]; [reflexivity | ].
    replace (wordChar 40) with false by reflexivity. reflexivity.
  - assert (Hd : wordChar d = true).
    { cbn [forallb] in Hrun. now apply andb_true_iff in Hrun as [Hd _]. }
    change (countCalls ((c :: d :: run) ++ 40%N :: rest))
      with ((if wordChar c && N.eqb d 40 then 1 else 0)
            + countCalls ((d :: run) ++ 40%N :: rest)).
    rewrite (wordChar_not_paren _ Hd), andb_false_r.
    apply IH; [discriminate | exact Hrun].
Qed.

Lemma countCalls_miss (c : N) (s : jsstring) :
  matchAt toolCallPattern (c :: s) = None ->
  countCalls (c :: s) = countCalls s.
Proof.
  intros Hm. cbn [countCalls].
  destruct s as [|d s]; [reflexivity | ].
  destruct (wordChar c) eqn:Hc; [ | reflexivity].
  destruct (N.eqb_spec d 40) as [-> | ]; [ | reflexivity].
  assert (Hhit : matchAt toolCallPattern ([c] ++ 40%N :: s) = Some ([c] ++ [40%N])).
  { apply matchAt_toolCall. exists [c], s. cbn [forallb]. rewrite Hc.
    repeat split. discriminate. }
  cbn [app] in Hhit. congruence.
Qed.

Lemma Occurs_cons (m s : jsstring) (c : N) : Occurs m s -> Occurs m (c :: s).
Proof.
  intros [before [after ->]]. now exists (c :: before), after.
Qed.

Lemma Occurs_after (m pre s : jsstring) : Occurs m s -> Occurs m (pre ++ s).
Proof.
  intros [before [after ->]]. exists (pre ++ before), after.
  now rewrite <- app_assoc.
Qed.

Lemma scan_ext (r1 r2 : regex) :
  (forall s, matchAt r1 s = matchAt r2 s) ->
  forall s skip, scan r1 skip s = scan r2 skip s.
Proof.
  intros Hsame s.
  induction s as [|c s IH]; intros skip; cbn [scan].
  - now rewrite Hsame.
  - destruct skip as [|n]; [ | apply IH].
    rewrite Hsame. destruct (matchAt r2 (c :: s)); now rewrite IH.
Qed.

(** A call cannot start at a code unit that is not a word character. *)
Lemma matchAt_not_word (c : N) (s : jsstring) :
  wordChar c = false -> matchAt toolCallPattern (c :: s) = None.
Proof.
  intros Hc.
  destruct (matchAt toolCallPattern (c :: s)) as [m | ] eqn:Hm; [ | reflexivity].
  apply matchAt_toolCall in Hm as ([|d run] & rest & Hne & Hrun & Hs & _);
    [contradiction | ].
  injection Hs as <- _. cbn [forallb] in Hrun. now rewrite Hc in Hrun.
Qed.

(** No call starts in [c :: s]: none either when text follows a separator. *)
Lemma matchAt_miss_before_separator (c sep : N) (s t : jsstring) :
  wordChar sep = false -> sep <> 40%N ->
  matchAt toolCallPattern (c :: s) = None ->
  matchAt toolCallPattern ((c :: s) ++ sep :: t) = None.
Proof.
  intros Hsep Hparen Hm.
  destruct (matchAt toolCallPattern ((c :: s) ++ sep :: t)) as [m | ] eqn:Hm';
    [ | reflexivity].
  exfalso.
  apply matchAt_toolCall in Hm' as (run & rest & Hne & Hrun & Hs & _).
  replace (run ++ 40%N :: rest) with ((run ++ [40%N]) ++ rest) in Hs
    by now rewrite <- app_assoc.
  apply app_eq_app in Hs as [l [[Hcs Hrest] | [Hcall Hsep']]].
  - assert (Hhit : matchAt toolCallPattern (c :: s) = Some (run ++ [40%N])).
    { apply matchAt_toolCall. exists run, l.
      repeat split; try assumption. now rewrite Hcs, <- app_assoc. }
    congruence.
  - destruct l as [|e l].
    + rewrite app_nil_r in Hcall.
      assert (Hhit : matchAt toolCallPattern (c :: s) = Some (run ++ [40%N])).
      { apply matchAt_toolCall. exists run, [].
        repeat split; try assumption. now rewrite <- Hcall. }
      congruence.
    + injection Hsep' as <- _.
      assert (Hin : In sep (run ++ [40%N])).
      { rewrite Hcall. apply in_or_app. right. now left. }
      apply in_app_or in Hin as [Hin | [Hin | []]].
      * rewrite forallb_forall in Hrun. apply Hrun in Hin. congruence.
      * now apply Hparen.
Qed.

(** X1. The extraction finds one call for each opening parenthesis that
    directly follows a word character, no more and no fewer. *)
Theorem toolCalls_one_per_word_paren (t : jsstring) :
  length (toolCallMatches t) = countCalls t.
Proof.
  rewrite toolCallMatches_scan.
  apply (toolCall_scan_ind (fun s ms => length ms = countCalls s)).
  - reflexivity.
  - intros run rest ms Hne Hrun IH.
    rewrite countCalls_hit by assumption. cbn [length]. now rewrite IH.
  - intros c s ms Hm IH. now rewrite countCalls_miss.
Qed.

(** X2. Every extracted call is a non-empty run of word characters with the
    opening parenthesis that follows it, and it occurs in the transcript. *)
Theorem toolCalls_are_word_runs (t m : jsstring) :
  In m (toolCallMatches t) ->
  (exists run, run <> [] /\ forallb wordChar run = true /\ m = run ++ [40%N])
  /\ Occurs m t.
Proof.
  rewrite toolCallMatches_scan. revert m.
  apply (toolCall_scan_ind
           (fun s ms => forall m, In m ms ->
              (exists run, run <> [] /\ forallb wordChar run = true
                           /\ m = run ++ [40%N])
              /\ Occurs m s)).
  - intros m [].
  - intros run rest ms Hne Hrun IH m [<- | Hin].
    + split; [now exists run | ].
      exists [], rest. cbn [app]. now rewrite <- app_assoc.
    + destruct (IH m Hin) as [Hshape Hocc].
      split; [exact Hshape | ].
      apply Occurs_after. now apply Occurs_cons.
  - intros c s ms _ IH m Hin.
    destruct (IH m Hin) as [Hshape Hocc].
    split; [exact Hshape | now apply Occurs_cons].
Qed.

(** X3. The first alternative of the pattern adds nothing: the extraction is
    that of [/\w+\(/g], on every transcript. *)
Theorem toolCalls_first_alternative_redundant (t : jsstring) :
  toolCallMatches t
  = match matchGlobal wordsThenParen t with
    | Some ms => ms
    | None => []
    end.
Proof.
  unfold toolCallMatches, matchGlobal.
  rewrite (scan_ext toolCallPattern wordsThenParen).
  - reflexivity.
  - intros s. unfold matchAt.
    now rewrite toolCallPattern_second_alternative.
Qed.

(** X4. Text on the two sides of a separator, a code unit that is neither a
    word character nor an opening parenthesis, is extracted side by side:
    the calls of the whole are those of the left part, then those of the
    right part. *)
Theorem toolCalls_split_at_separator (s t : jsstring) (sep : N) :
  wordChar sep = false -> sep <> 40%N ->
  toolCallMatches (s ++ sep :: t) = toolCallMatches s ++ toolCallMatches t.
Proof.
  intros Hsep Hparen. rewrite !toolCallMatches_scan.
  apply (toolCall_scan_ind
           (fun s ms => scan toolCallPattern 0 (s ++ sep :: t)
                        = ms ++ scan toolCallPattern 0 t)).
  - cbn [app]. apply scan_miss. now apply matchAt_not_word.
  - intros run rest ms Hne Hrun IH.
    rewrite <- app_assoc. cbn [app].
    rewrite scan_hit by assumption. now rewrite IH.
  - intros c s' ms Hm IH.
    change ((c :: s') ++ sep :: t) with (c :: (s' ++ sep :: t)).
    rewrite scan_miss; [exact IH | ].
    now apply (matchAt_miss_before_separator c sep s' t).
Qed.


(** X5. The extracted calls are pieces of the transcript that follow one
    another without overlap: the transcript is a gap, the first call, a gap,
    the second call, and so on to the last call, and then a rest; each call
    has at least two code units. *)
Theorem toolCalls_do_not_overlap (t : jsstring) :
  (exists gaps rest,
      length gaps = length (toolCallMatches t)
      /\ t = weave gaps (toolCallMatches t) ++ rest)
  /\ Forall (fun call => 2 <= length call) (toolCallMatches t).
Proof.
  rewrite toolCallMatches_scan.
  apply (toolCall_scan_ind
           (fun s ms =>
              (exists gaps rest,
                  length gaps = length ms /\ s = weave gaps ms ++ rest)
              /\ Forall (fun call => 2 <= length call) ms)).
  - split; [now exists [], [] | constructor].
  - intros run rest0 ms Hne Hrun [(gaps & rest & Hcount & ->) Hlong].
    split.
    + exists ([] :: gaps), rest. cbn [length weave app].
      split; [now rewrite Hcount | ].
      now rewrite <- !app_assoc.
    + constructor; [ | exact Hlong].
      rewrite length_app. cbn [length].
      destruct run; [contradiction | cbn [length]; lia].
  - intros c s ms _ [(gaps & rest & Hcount & ->) Hlong].
    split; [ | exact Hlong].
    destruct gaps as [|gap gaps], ms as [|call ms]; try discriminate.
    + now exists [], (c :: rest).
    + exists ((c :: gap) :: gaps), rest. split; [exact Hcount | reflexivity].
Qed.

(** ** The checks against one another *)

Lemma Occurs_trans (a b t : jsstring) : Occurs a b -> Occurs b t -> Occurs a t.
Proof.
  intros [p [q ->]] [before [after ->]].
  exists (before ++ p), (q ++ after).
  now rewrite <- !app_assoc.
Qed.

Lemma includes_part (whole part t : jsstring) :
  Occurs part whole -> includes t whole = true -> includes t part = true.
Proof.
  rewrite !includes_Occurs. apply Occurs_trans.
Qed.

Lemma Occurs_lit (pre part post : string) :
  Occurs (lit part) (lit pre ++ lit part ++ lit post).
Proof. now exists (lit pre), (lit post). Qed.

Lemma toolCall_occurs (t m : jsstring) :
  In m (toolCallMatches t) -> Occurs m t.
Proof.
  rewrite toolCallMatches_scan. revert m.
  apply (toolCall_scan_ind (fun s ms => forall m, In m ms -> Occurs m s)).
  - intros m [].
  - intros run rest ms _ _ IH m [<- | Hin].
    + exists [], rest. cbn [app]. now rewrite <- app_assoc.
    + apply Occurs_after, Occurs_cons, IH, Hin.
  - intros c s ms _ IH m Hin. apply Occurs_cons, IH, Hin.
Qed.

Lemma two_checks_succeed (t : jsstring) :
  2 <= matchedCount t expectedBehaviors ->
  success (evaluate t expectedBehaviors 2) = true.
Proof.
  intros Hcount. rewrite success_evaluate. unfold meets.
  apply Z.leb_le. lia.
Qed.

(** X6. In the terminal check the alternative "run_in_terminal" adds nothing:
    the check is true exactly when "terminal" occurs in the response. *)
Theorem terminal_check_is_terminal (response : jsstring) :
  run_in_terminal_usage response = includes response (lit "terminal").
Proof.
  unfold run_in_terminal_usage.
  destruct (includes response (lit "run_in_terminal")) eqn:Hfull;
    [ | reflexivity].
  symmetry. cbn [orb].
  apply (includes_part (lit "run_in_terminal") _ response); [ | exact Hfull].
  apply (Occurs_lit "run_in_" "terminal" "").
Qed.

(** X7. A response that mentions an error together with a build, as
    "dotnet build", as "building" or as "build" with "again", passes: the
    error-analysis check and one of the build checks are then both true,
    whether or not anything was fixed. *)
Theorem error_and_build_pass (response : jsstring) :
  Occurs (lit "error") response ->
  Occurs (lit "dotnet build") response \/ Occurs (lit "building") response
  \/ (Occurs (lit "build") response /\ Occurs (lit "again") response) ->
  error_analysis response = true
  /\ success (evaluate response expectedBehaviors 2) = true.
Proof.
  intros Herror Hbuild.
  apply includes_Occurs in Herror.
  assert (Hword : includes response (lit "build") = true).
  { destruct Hbuild as [H1 | [H2 | [H3 _]]].
    - apply (includes_part (lit "dotnet build") _ response);
        [apply (Occurs_lit "dotnet " "build" "") | now apply includes_Occurs].
    - apply (includes_part (lit "building") _ response);
        [apply (Occurs_lit "" "build" "ing") | now apply includes_Occurs].
    - now apply includes_Occurs. }
  assert (Hanalysis : error_analysis response = true).
  { unfold error_analysis. rewrite Herror, Hword. now rewrite orb_true_r. }
  split; [exact Hanalysis | ].
  apply two_checks_succeed. rewrite matchedCount_default, Hanalysis.
  assert (Hother : dotnet_build_command response = true
                   \/ retry_building response = true).
  { unfold dotnet_build_command, retry_building.
    destruct Hbuild as [H1 | [H2 | [_ H4]]].
    - left. apply includes_Occurs in H1. now rewrite H1.
    - left. apply includes_Occurs in H2. rewrite H2. now rewrite orb_true_r.
    - right. apply includes_Occurs in H4. now rewrite Hword, H4. }
  destruct Hother as [-> | ->];
    destruct (dotnet_build_command response), (run_in_terminal_usage response),
      (file_editing response), (retry_building response); cbn; lia.
Qed.

(** X8. The extraction and the checks agree on the two tools: a response from
    which "run_in_terminal(" is extracted passes the terminal check, one from
    which "replace_string_in_file(" is extracted passes the editing check,
    and a response with both passes. *)
Theorem extracted_tools_pass (response : jsstring) :
  In (lit "run_in_terminal(") (toolCallMatches response) ->
  In (lit "replace_string_in_file(") (toolCallMatches response) ->
  run_in_terminal_usage response = true
  /\ file_editing response = true
  /\ success (evaluate response expectedBehaviors 2) = true.
Proof.
  intros Hterminal Hedit.
  apply toolCall_occurs, includes_Occurs in Hterminal, Hedit.
  assert (H2 : run_in_terminal_usage response = true).
  { unfold run_in_terminal_usage.
    rewrite (includes_part (lit "run_in_terminal(") (lit "run_in_terminal") response);
      [reflexivity | apply (Occurs_lit "" "run_in_terminal" "(") | exact Hterminal]. }
  assert (H4 : file_editing response = true).
  { unfold file_editing.
    rewrite (includes_part (lit "replace_string_in_file(")
               (lit "replace_string_in_file") response);
      [reflexivity | apply (Occurs_lit "" "replace_string_in_file" "(")
       | exact Hedit]. }
  split; [exact H2 | split; [exact H4 | ] ].
  apply two_checks_succeed. rewrite matchedCount_default, H2, H4.
  destruct (dotnet_build_command response), (error_analysis response),
    (retry_building response); cbn; lia.
Qed.

(** ** More on what the callback writes *)

Section CallbackBeyond.

Context {H E Accessor Runtime : Type}.
Context {Response Turn Commands Confirmations FileTrees : Type}.

(** X9. [log] never throws, whatever the accessor and the runtime's logger
    do: its line is added to the console, and a failure to reach the runtime
    or to log there is swallowed, the host left as the failing call left
    it. *)
Theorem log_falls_back_to_console
    (host : Host H E Accessor Runtime) (accessor : Accessor)
    (message : jsstring) (w : World H) :
  exists w',
    log host accessor message w = (Normal tt, w')
    /\ console w' = console w ++ [wrench ++ lit " " ++ message]
    /\ hostState w' =
       match accessor_get host accessor (hostState w) with
       | (Normal testContext, h) => snd (testContext_log host testContext message h)
       | (Throw _, h) => h
       end.
Proof.
  unfold log, bind, console_log, tryCatch, liftHost, ret. cbn [console hostState].
  destruct (accessor_get host accessor (hostState w)) as [[testContext | e] h];
    cbn [console hostState].
  - destruct (testContext_log host testContext message h) as [[[] | e] h'];
      eexists; repeat split.
  - eexists; repeat split.
Qed.

(** X10. Whatever the runtime's logger and the file system do, the callback
    adds to the console the ten lines of its report, in order, and then one
    line about the analysis file; what the console held before stays. *)
Theorem console_gets_the_report
    (host : Host H E Accessor Runtime) (accessor : Accessor)
    (question : jsstring) (response : Response) (fullResponse : jsstring)
    (turn : Turn) (index : nat) (commands : Commands)
    (confirmations : Confirmations) (fileTrees : FileTrees) (w : World H) :
  exists v w' outcome,
    validationCallback host accessor question response fullResponse turn
                       index commands confirmations fileTrees w
    = (Normal v, w')
    /\ console w' =
       console w ++ consoleReport fullResponse ++ [fileOutputLine host outcome]
    /\ length (consoleReport fullResponse) = 10.
Proof.
  destruct (validationCallback_trace host accessor question response
              fullResponse turn index commands confirmations fileTrees w)
    as (w0 & w1 & w' & Hrun & Hreport & _ & Hclock & Hwrite).
  destruct (writeAnalysis_normal host accessor
              (analysisOf (fst (Date_toISOString host (hostState w0)))
                          fullResponse) w1) as (w'' & Hwrite' & Hline).
  rewrite Hwrite in Hwrite'. injection Hwrite' as <-.
  eexists _, w', _.
  split; [exact Hrun | split; [ | reflexivity] ].
  rewrite Hline, Hclock, Hreport, <- app_assoc. reflexivity.
Qed.

(** X11. The object written to the analysis file agrees with the returned
    verdict: its [success] is the returned one, its [behaviorMatches] is the
    count the error message reports and is at most its [totalBehaviors], 5,
    and its preview is the first 500 code units of the response, all of it
    when the response is shorter. *)
Theorem analysis_agrees_with_verdict
    (host : Host H E Accessor Runtime) (accessor : Accessor)
    (question : jsstring) (response : Response) (fullResponse : jsstring)
    (turn : Turn) (index : nat) (commands : Commands)
    (confirmations : Confirmations) (fileTrees : FileTrees) (w : World H) :
  exists v logData w1 w',
    validationCallback host accessor question response fullResponse turn
                       index commands confirmations fileTrees w
    = (Normal v, w')
    /\ writeAnalysis host accessor logData w1 = (Normal tt, w')
    /\ LogData.success logData = success v
    /\ errorMessage v =
       (if LogData.success logData then None
        else Some (failureMessage (LogData.behaviorMatches logData)
                                  (LogData.totalBehaviors logData)))
    /\ LogData.behaviorMatches logData <= LogData.totalBehaviors logData
    /\ LogData.totalBehaviors logData = 5
    /\ LogData.toolCalls logData = toolCallMatches fullResponse
    /\ LogData.responseLength logData = length (LogData.fullResponse logData)
    /\ LogData.fullResponse logData = fullResponse
    /\ length (LogData.responsePreview logData) = Nat.min 500 (length fullResponse)
    /\ exists rest, fullResponse = LogData.responsePreview logData ++ rest.
Proof.
  destruct (validationCallback_trace host accessor question response
              fullResponse turn index commands confirmations fileTrees w)
    as (w0 & w1 & w' & Hrun & _ & _ & _ & Hwrite).
  eexists _, _, w1, w'.
  split; [exact Hrun | split; [exact Hwrite | ] ].
  unfold analysisOf, evaluate, verdictOf, matchedCount. cbv zeta.
  cbn [LogData.success LogData.behaviorMatches LogData.totalBehaviors
       LogData.toolCalls LogData.responseLength LogData.fullResponse
       LogData.responsePreview success errorMessage].
  repeat split.
  - apply (matchedCount_le_total fullResponse expectedBehaviors).
  - unfold substring0. apply length_firstn.
  - exists (skipn 500 fullResponse). unfold substring0.
    symmetry. apply firstn_skipn.
Qed.

(** X12. A failing run reports 0 or 1 matches out of 5: the callback returns
    no error message or one of these two, and nothing else. *)
Theorem failure_reports_zero_or_one
    (host : Host H E Accessor Runtime) (accessor : Accessor)
    (question : jsstring) (response : Response) (fullResponse : jsstring)
    (turn : Turn) (index : nat) (commands : Commands)
    (confirmations : Confirmations) (fileTrees : FileTrees) (w : World H) :
  exists v w',
    validationCallback host accessor question response fullResponse turn
                       index commands confirmations fileTrees w
    = (Normal v, w')
    /\ (v = {| success := true; errorMessage := None |}
        \/ v = {| success := false; errorMessage := Some (failureMessage 0 5) |}
        \/ v = {| success := false; errorMessage := Some (failureMessage 1 5) |}).
Proof.
  destruct (validationCallback_normal host accessor question response
              fullResponse turn index commands confirmations fileTrees w)
    as (_ & w' & _ & Hrun & _).
  eexists _, w'. split; [exact Hrun | ].
  unfold evaluate, verdictOf, meets.
  destruct (matchedCount fullResponse expectedBehaviors) as [|[|n]].
  - right. left. reflexivity.
  - right. right. reflexivity.
  - left.
    replace (2 <=? Z.of_nat (S (S n)))%Z with true; [reflexivity | ].
    symmetry. apply Z.leb_le. lia.
Qed.

End CallbackBeyond.

(** ** The arguments of the bash launcher *)

Lemma parseArguments_skips (script : string) (b : bool) (n : nat)
    (rest : list string) :
  Bash.parseArguments script b (repeat "--skip-build"%string n ++ rest)
  = Bash.parseArguments script (b || (0 <? n)) rest.
Proof.
  revert b. induction n as [|n IH]; intros b; cbn [repeat app].
  - now rewrite orb_false_r.
  - cbn [Bash.parseArguments]. rewrite String.eqb_refl, IH.
    cbn [orb]. now rewrite orb_true_r.
Qed.

Lemma parseArguments_goes_on (script : string) (arguments : list string)
    (b0 b : bool) :
  Bash.parseArguments script b0 arguments = Bash.GoesOn b <->
  Forall (fun argument => argument = "--skip-build"%string) arguments
  /\ b = match arguments with [] => b0 | _ :: _ => true end.
Proof.
  revert b0. induction arguments as [|argument rest IH]; intros b0;
    cbn [Bash.parseArguments].
  - split.
    + intros [= ->]. split; [constructor | reflexivity].
    + intros [_ ->]. reflexivity.
  - destruct (String.eqb_spec argument "--skip-build") as [-> | Hother].
    + rewrite IH. split.
      * intros [Hrest ->]. split; [now constructor | now destruct rest].
      * intros [Hall ->]. inversion Hall; subst. split; [assumption | now destruct rest].
    + split.
      * destruct (String.eqb argument "--help" || String.eqb argument "-h");
          discriminate.
      * intros [Hall _]. inversion Hall; subst. contradiction.
Qed.

(** X13. The launcher goes past its argument loop exactly when every
    argument is [--skip-build]; [SKIP_BUILD] is then true when there is at
    least one argument and false when there is none. *)
Theorem arguments_accepted_iff_all_skip_build
    (script : string) (arguments : list string) (SKIP_BUILD : bool) :
  Bash.readArguments script arguments = Bash.GoesOn SKIP_BUILD <->
  Forall (fun argument => argument = "--skip-build"%string) arguments
  /\ SKIP_BUILD = negb (Nat.eqb (length arguments) 0).
Proof.
  unfold Bash.readArguments. rewrite parseArguments_goes_on.
  now destruct arguments.
Qed.

(** X14. The first argument that is not [--skip-build] decides, and what
    follows it is not read: [--help] or [-h] prints the usage and exits with
    status 0, anything else is reported as unknown with status 1. *)
Theorem first_other_argument_decides
    (script : string) (n : nat) (argument : string) (rest : list string) :
  argument <> "--skip-build"%string ->
  Bash.readArguments script (repeat "--skip-build"%string n ++ argument :: rest)
  = if String.eqb argument "--help" || String.eqb argument "-h"
    then Bash.Exits 0 (Bash.usage script)
    else Bash.Exits 1 [("Unknown option: " ++ argument)%string;
                       "Use --help for usage information"%string].
Proof.
  intros Hother. unfold Bash.readArguments.
  rewrite parseArguments_skips. cbn [Bash.parseArguments].
  apply String.eqb_neq in Hother. now rewrite Hother.
Qed.

(** ** The lines of [.env] in the PowerShell launcher *)

Lemma starClass_sound (p : N -> bool) (k : jsstring -> option jsstring)
    (s r : jsstring) :
  PowerShell.starClass p s k = Some r ->
  exists run s1, forallb p run = true /\ s = run ++ s1 /\ k s1 = Some r.
Proof.
  induction s as [|c s IH]; cbn [PowerShell.starClass].
  - intros Hk. now exists [], [].
  - destruct (p c) eqn:Hc.
    + destruct (PowerShell.starClass p s k) as [r' | ] eqn:Hstar.
      * intros [= ->].
        destruct (IH eq_refl) as (run & s1 & Hrun & -> & Hk).
        exists (c :: run), s1. cbn [forallb]. now rewrite Hc, Hrun.
      * intros Hk. now exists [], (c :: s).
    + intros Hk. now exists [], (c :: s).
Qed.

Lemma valueEnd_inv (s s3 : jsstring) :
  PowerShell.valueEnd s = Some s3 ->
  exists value,
    s = value ++ s3 /\ forallb PowerShell.dot value = true
    /\ (s3 = [] \/ s3 = [10%N]).
Proof.
  unfold PowerShell.valueEnd. intros Hstar.
  apply starClass_sound in Hstar as (value & s1 & Hvalue & -> & Hk).
  destruct (PowerShell.atEnd s1) eqn:Hend; [ | discriminate].
  injection Hk as <-.
  exists value. repeat split; [exact Hvalue | ].
  destruct s1 as [|c [|d s1]]; [now left | | discriminate].
  cbn [PowerShell.atEnd] in Hend. apply N.eqb_eq in Hend as ->. now right.
Qed.

Lemma valueEnd_line (value : jsstring) :
  forallb PowerShell.dot value = true -> PowerShell.valueEnd value = Some [].
Proof.
  unfold PowerShell.valueEnd.
  induction value as [|c value IH]; [reflexivity | ].
  cbn [forallb PowerShell.starClass]. intros Hvalue.
  apply andb_true_iff in Hvalue as [-> Hvalue]. now rewrite IH.
Qed.

Lemma nameEnd_line (name value : jsstring) :
  name <> [] -> forallb PowerShell.notEquals name = true ->
  forallb PowerShell.dot value = true ->
  PowerShell.nameEnd (name ++ 61%N :: value) = Some (61%N :: value).
Proof.
  intros Hne Hname Hvalue. unfold PowerShell.nameEnd.
  induction name as [|c name IH]; [contradiction | ].
  cbn [forallb] in Hname. apply andb_true_iff in Hname as [Hc Hname].
  cbn [app plusClass]. rewrite Hc.
  destruct name as [|d name].
  - cbn [app plusClass].
    replace (PowerShell.notEquals 61) with false by reflexivity.
    rewrite N.eqb_refl. now rewrite valueEnd_line.
  - rewrite IH; [reflexivity | discriminate | exact Hname].
Qed.

Lemma upTo_app (pre rest : jsstring) : PowerShell.upTo (pre ++ rest) rest = pre.
Proof.
  unfold PowerShell.upTo.
  rewrite length_app, Nat.add_sub, firstn_app, Nat.sub_diag, firstn_all.
  cbn [firstn]. apply app_nil_r.
Qed.

Lemma envLine_line (name value : jsstring) :
  name <> [] -> forallb PowerShell.notEquals name = true ->
  forallb PowerShell.dot value = true ->
  PowerShell.envLine (name ++ 61%N :: value) = Some (name, value).
Proof.
  intros Hne Hname Hvalue. unfold PowerShell.envLine.
  rewrite nameEnd_line by assumption.
  cbn [tl]. rewrite valueEnd_line by assumption.
  rewrite upTo_app.
  replace (PowerShell.upTo value []) with (PowerShell.upTo (value ++ []) [])
    by now rewrite app_nil_r.
  now rewrite upTo_app.
Qed.

(** X16. A line [NAME=value] sets [NAME] to [value]: for a name that is not
    empty and holds no [=] and a value without a line feed, the match gives
    back the name and the value, further [=] signs in the value included. *)
Theorem envLine_reads_name_and_value (name value : jsstring) :
  name <> [] ->
  forallb PowerShell.notEquals name = true ->
  forallb PowerShell.dot value = true ->
  PowerShell.envLine (name ++ lit "=" ++ value) = Some (name, value).
Proof.
  intros Hne Hname Hvalue. now apply envLine_line.
Qed.

Lemma envLine_inv (line name value : jsstring) :
  PowerShell.envLine line = Some (name, value) ->
  name <> []
  /\ forallb PowerShell.notEquals name = true
  /\ forallb PowerShell.dot value = true
  /\ (line = name ++ lit "=" ++ value
      \/ line = name ++ lit "=" ++ value ++ [10%N]).
Proof.
  unfold PowerShell.envLine, PowerShell.nameEnd.
  destruct (plusClass PowerShell.notEquals line _) as [s1 | ] eqn:Hplus;
    [ | discriminate].
  apply plusClass_sound in Hplus as (run & s1' & Hne & Hrun & -> & Hk).
  destruct s1' as [|c s2]; [discriminate | ].
  destruct (N.eqb_spec c 61) as [-> | ]; [ | discriminate].
  destruct (PowerShell.valueEnd s2) as [s3' | ] eqn:Hvalue; [ | discriminate].
  injection Hk as <-. cbn [tl]. rewrite Hvalue.
  apply valueEnd_inv in Hvalue as (v & -> & Hv & Hend).
  rewrite !upTo_app. intros [= <- <-].
  repeat split; try assumption.
  destruct Hend as [-> | ->]; [left | right].
  - now rewrite app_nil_r.
  - reflexivity.
Qed.


(** X17. A line sets a variable only in this way: when it matches, the name
    is what stands before its first [=] and is not empty, and the value is
    the rest of the line, up to a line feed that ends it.  So a line without
    [=] and a line that starts with [=] set nothing. *)
Theorem envLine_only_name_equals_value (line name value : jsstring) :
  PowerShell.envLine line = Some (name, value) ->
  (exists first rest, name = first :: rest)
  /\ In 61%N line
  /\ forallb PowerShell.notEquals name = true
  /\ forallb PowerShell.dot value = true
  /\ (line = name ++ lit "=" ++ value
      \/ line = name ++ lit "=" ++ value ++ [10%N]).
Proof.
  intros Hset.
  apply envLine_inv in Hset as (Hne & Hname & Hvalue & Hshape).
  split; [destruct name as [|first rest]; [contradiction | eauto] | ].
  split; [ | auto].
  destruct Hshape as [-> | ->]; apply in_or_app; right; now left.
Qed.

Lemma assignments_app (lines1 lines2 : list jsstring) :
  PowerShell.assignments (lines1 ++ lines2)
  = PowerShell.assignments lines1 ++ PowerShell.assignments lines2.
Proof.
  induction lines1 as [|line lines1 IH]; [reflexivity | ].
  cbn [app PowerShell.assignments].
  destruct (PowerShell.envLine line); [cbn [app]; now rewrite IH | exact IH].
Qed.

(** X18. Loading gives back what was written: a file with one line
    [NAME=value] for each pair of a list, names not empty and without [=],
    values without line feed, makes the launcher set exactly these pairs, in
    this order; lines without [=] among them change nothing. *)
Theorem assignments_of_written_pairs
    (pairs : list (jsstring * jsstring)) (noise : list jsstring) :
  Forall (fun pair => fst pair <> []
                      /\ forallb PowerShell.notEquals (fst pair) = true
                      /\ forallb PowerShell.dot (snd pair) = true) pairs ->
  Forall (fun line => forallb PowerShell.notEquals line = true) noise ->
  PowerShell.assignments
    (noise ++ map (fun pair => fst pair ++ lit "=" ++ snd pair) pairs ++ noise)
  = pairs.
Proof.
  intros Hpairs Hnoise.
  assert (Hquiet : PowerShell.assignments noise = []).
  { induction Hnoise as [|line noise Hline _ IH]; [reflexivity | ].
    cbn [PowerShell.assignments].
    destruct (PowerShell.envLine line) as [[name value] | ] eqn:Hset;
      [ | exact IH].
    exfalso.
    apply envLine_inv in Hset as (_ & _ & _ & Hshape).
    assert (Hin : In 61%N line).
    { destruct Hshape as [-> | ->]; apply in_or_app; right; now left. }
    rewrite forallb_forall in Hline. now apply Hline in Hin. }
  rewrite !assignments_app, Hquiet, app_nil_r. cbn [app].
  induction Hpairs as [|[name value] pairs (Hne & Hname & Hvalue) _ IH];
    [reflexivity | ].
  cbn [map PowerShell.assignments fst snd] in *.
  change (name ++ lit "=" ++ value) with (name ++ 61%N :: value).
  rewrite envLine_line by assumption. now rewrite IH.
Qed.

(** ** The bash launcher from its token line on *)

Section LauncherFacts.
Import Launcher.

Context {S : Type}.
Variable m : Machine S.

Ltac script_reduce :=
  cbv beta iota zeta
      delta [andThen echo exit done run command commandOrTrue testFile
             testDirectory pipedToGrep stdout executed machine negb fst snd
             start exitStatus].

Ltac script_step :=
  match goal with
  | |- context [status m ?argv ?s] =>
      let code := fresh "code" in
      let s' := fresh "s" in
      let Hrun := fresh "Hrun" in
      destruct (status m argv s) as [code s'] eqn:Hrun;
      try (destruct code as [|code])
  | |- context [output m ?argv ?s] =>
      let text := fresh "text" in
      let s' := fresh "s" in
      let Hout := fresh "Hout" in
      destruct (output m argv s) as [text s'] eqn:Hout
  | |- context [contains ?text ?pattern] =>
      let Hfound := fresh "Hfound" in
      destruct (contains text pattern) eqn:Hfound
  | |- context [isFile m ?path ?s] =>
      let Hfile := fresh "Hfile" in
      destruct (isFile m path s) eqn:Hfile
  | |- context [isDirectory m ?path ?s] =>
      let Hdir := fresh "Hdir" in
      destruct (isDirectory m path s) eqn:Hdir
  end;
  script_reduce.

Ltac script_run :=
  unfold launch, ensureImage, prepareOutput, runScenario;
  script_reduce; repeat script_step; cbn [app].

(** The last command of a list of commands that ran. *)
Ltac last_command H :=
  apply (f_equal (fun l => last l ([], 0))) in H;
  rewrite last_last in H; cbn [last] in H;
  unfold dockerRun, dockerBuild, findImage, pipeline, dockerImages in H.

Ltac no_such_command H :=
  cbn [In] in H; unfold dockerRun, dockerBuild, findImage, pipeline, dockerImages in H;
  repeat (destruct H as [H | H]; [discriminate H | ]); try contradiction.

(** X19. The launcher ends with status 0 exactly when [docker run] was the
    last command it ran and returned 0. *)
Theorem launch_status_zero_iff_docker_run_succeeded
    (SKIP_BUILD : bool) (GITHUB_OAUTH_TOKEN GITHUB_PAT : string) (s : S) :
  let outcome := launch m SKIP_BUILD GITHUB_OAUTH_TOKEN GITHUB_PAT (start s) in
  exitStatus (fst outcome) = 0 <->
  exists earlier directory,
    executed (snd outcome)
    = earlier ++ [(dockerRun directory GITHUB_OAUTH_TOKEN GITHUB_PAT, 0)].
Proof.
  cbv zeta.
  destruct SKIP_BUILD; script_run;
    (split;
     [ intros Hzero;
       first [ discriminate Hzero | eexists [_; _; _], _; reflexivity ]
     | intros (earlier & directory & Hlast);
       first [ reflexivity
             | exfalso; destruct earlier; discriminate Hlast
             | exfalso; last_command Hlast; discriminate Hlast ] ]).
Qed.

(** X20. The container is started only when everything is in place: if
    [docker run] ran, then [dist/simulationMain.js] was a file when the
    script started, the image was found (with [--skip-build]) or built with
    status 0 (without), [mkdir -p] returned 0, nothing ran after
    [docker run], and the script ended with the status [docker run]
    returned. *)
Theorem docker_run_only_when_ready
    (SKIP_BUILD : bool) (GITHUB_OAUTH_TOKEN GITHUB_PAT directory : string)
    (code : nat) (s : S) :
  let outcome := launch m SKIP_BUILD GITHUB_OAUTH_TOKEN GITHUB_PAT (start s) in
  In (dockerRun directory GITHUB_OAUTH_TOKEN GITHUB_PAT, code)
     (executed (snd outcome)) ->
  isFile m "dist/simulationMain.js" s = true
  /\ In (if SKIP_BUILD then findImage else dockerBuild, 0)
        (executed (snd outcome))
  /\ In (["mkdir"; "-p"; OUTPUT_DIR]%string, 0) (executed (snd outcome))
  /\ last (executed (snd outcome)) ([], 0)
     = (dockerRun directory GITHUB_OAUTH_TOKEN GITHUB_PAT, code)
  /\ exitStatus (fst outcome) = code.
Proof.
  cbv zeta.
  destruct SKIP_BUILD; script_run; intros Hran; cbn [In] in Hran;
    repeat (destruct Hran as [Hran | Hran];
            [ try (exfalso; unfold dockerRun, dockerBuild, findImage, pipeline, dockerImages in Hran;
                   discriminate Hran) | ]);
    try contradiction;
    pose proof (f_equal snd Hran) as Hcode; cbn [snd] in Hcode; subst code;
    rewrite <- Hran; cbn [In last];
    (split; [reflexivity | auto 10]).
Qed.


End LauncherFacts.


(** ** The properties beyond the claims at concrete inputs *)

(** "run_in_terminal(" is extracted from the tool-call transcript, so it
    occurs in it. *)
Lemma toolCalls_are_word_runs_witness :
  Occurs (lit "run_in_terminal(") toolCallTranscript.
Proof.
  apply (toolCalls_are_word_runs toolCallTranscript (lit "run_in_terminal(")).
  vm_compute. left. reflexivity.
Defined.

(** Two calls on the two sides of a space. *)
Lemma toolCalls_split_at_separator_witness :
  toolCallMatches (lit "f(x)" ++ 32%N :: lit "g(y)")
  = toolCallMatches (lit "f(x)") ++ toolCallMatches (lit "g(y)").
Proof.
  apply (toolCalls_split_at_separator (lit "f(x)") (lit "g(y)") 32%N).
  - reflexivity.
  - discriminate.
Defined.

(** "error" and "dotnet build" occur in the build-and-error transcript. *)
Lemma error_and_build_pass_witness :
  error_analysis buildAndErrorTranscript = true
  /\ success (evaluate buildAndErrorTranscript expectedBehaviors 2) = true.
Proof.
  apply (error_and_build_pass buildAndErrorTranscript).
  - apply includes_Occurs. vm_compute. reflexivity.
  - left. apply includes_Occurs. vm_compute. reflexivity.
Defined.

(** Both tools are extracted from the tool-call transcript. *)
Lemma extracted_tools_pass_witness :
  success (evaluate toolCallTranscript expectedBehaviors 2) = true.
Proof.
  apply (extracted_tools_pass toolCallTranscript).
  - vm_compute. left. reflexivity.
  - vm_compute. right. left. reflexivity.
Defined.

(** [--help] after an unknown option is not read. *)
Lemma first_other_argument_decides_witness :
  Bash.readArguments "./run.sh" ["--skip-build"; "--bogus"; "--help"]%string
  = Bash.Exits 1 ["Unknown option: --bogus";
                  "Use --help for usage information"]%string.
Proof.
  apply (first_other_argument_decides "./run.sh" 1 "--bogus" ["--help"%string]).
  discriminate.
Defined.

(** A token whose value holds an [=]. *)
Lemma envLine_reads_name_and_value_witness :
  PowerShell.envLine (lit "GITHUB_PAT=ghp_a=b")
  = Some (lit "GITHUB_PAT", lit "ghp_a=b").
Proof.
  apply (envLine_reads_name_and_value (lit "GITHUB_PAT") (lit "ghp_a=b")).
  - vm_compute. discriminate.
  - reflexivity.
  - reflexivity.
Defined.

(** A commented line with an [=] sets a variable all the same. *)
Lemma envLine_only_name_equals_value_witness :
  forallb PowerShell.notEquals (lit "# TOKEN") = true
  /\ In 61%N (lit "# TOKEN=none").
Proof.
  destruct (envLine_only_name_equals_value
              (lit "# TOKEN=none") (lit "# TOKEN") (lit "none"))
    as (_ & Hin & Hname & _).
  - vm_compute. reflexivity.
  - split; [exact Hname | exact Hin].
Defined.

(** Two pairs between two comments. *)
Lemma assignments_of_written_pairs_witness :
  PowerShell.assignments
    [lit "# tokens"; lit "GITHUB_OAUTH_TOKEN=gho_1"; lit "GITHUB_PAT=ghp_a=b";
     lit "# tokens"]
  = [(lit "GITHUB_OAUTH_TOKEN", lit "gho_1"); (lit "GITHUB_PAT", lit "ghp_a=b")].
Proof.
  apply (assignments_of_written_pairs
           [(lit "GITHUB_OAUTH_TOKEN", lit "gho_1"); (lit "GITHUB_PAT", lit "ghp_a=b")]
           [lit "# tokens"]).
  - repeat constructor; vm_compute; discriminate.
  - repeat constructor.
Defined.

(** On a machine where everything is in place, [--skip-build] finds the
    image, the container runs and the launcher ends with status 0. *)
Lemma docker_run_only_when_ready_witness :
  In (Launcher.findImage, 0)
     (Launcher.executed
        (snd (Launcher.launch Launcher.ready true "" "ghp_1" (Launcher.start tt))))
  /\ Launcher.exitStatus
       (fst (Launcher.launch Launcher.ready true "" "ghp_1" (Launcher.start tt)))
     = 0.
Proof.
  destruct (docker_run_only_when_ready Launcher.ready true "" "ghp_1" "/repo" 0 tt)
    as (_ & Himage & _ & _ & Hstatus).
  - vm_compute. auto 10.
  - split; [exact Himage | exact Hstatus].
Defined.

Example launcher_without_simulationMain :
  Launcher.launch
    {| Launcher.isFile := fun _ _ => false;
       Launcher.isDirectory := fun _ _ => true;
       Launcher.pwd := fun _ => "/repo"%string;
       Launcher.status := fun _ s => (0, s);
       Launcher.output := fun _ s => (""%string, s) |}
    false "" "" (Launcher.start tt)
  = (Launcher.Exit 1,
     {| Launcher.stdout :=
          ["✅ GitHub authentication token available";
           "❌ simulationMain.js not found. Please build the project first:";
           "   npm run compile";
           "   or run: ./setup-and-run-csharp-scenario.sh"]%string;
        Launcher.executed := [];
        Launcher.machine := tt |}).
Proof. reflexivity. Qed.
